(** * bokeh_time_series: the frame-to-rectangle transform of the notebook

    The repository is one Jupyter notebook (Python 2 kernel).  Its second code
    cell turns the rows of a pandas [DataFrame] of detector frames into the four
    coordinate lists of Bokeh's [quad] glyph; its last code cell hands the
    maximum of the top values to [get_day_plot_figure] and draws the quads.

    This file embeds those two cells: Python integers are [Z], Python floats are
    IEEE 754 binary64 values ([spec_float] with 53 bits of precision), a cell is
    a function on the kernel's namespace that either returns the new namespace
    or raises a Python exception. *)

From Stdlib Require Import ZArith Lia Bool String SpecFloat.
From stdpp Require Import base list option.

Local Open Scope Z_scope.

(** ** Python floats: IEEE 754 binary64 *)

Module Float64.

Definition prec : Z := 53.
Definition emax : Z := 1024.

Definition float : Type := spec_float.

Definition add : float -> float -> float := SFadd prec emax.
Definition sub : float -> float -> float := SFsub prec emax.
Definition mul : float -> float -> float := SFmul prec emax.
Definition div : float -> float -> float := SFdiv prec emax.

(** [x <= y], [x < y] and [x == y] as Python evaluates them on floats:
    every comparison with a NaN is false. *)
Definition leb : float -> float -> bool := SFleb.
Definition ltb : float -> float -> bool := SFltb.
Definition eqb : float -> float -> bool := SFeqb.

(** The values a binary64 can hold. *)
Definition valid : float -> bool := valid_binary prec emax.

Definition is_infinite (x : float) : bool :=
  match x with S754_infinity _ => true | _ => false end.

(** The nearest binary64 to an integer, ties to even; an integer beyond
    the largest finite value goes to an infinity. *)
Definition of_Z (z : Z) : float := binary_normalize prec emax z 0 false.

(** The float literal [0.0]. *)
Definition zero : float := S754_zero false.

(** A decimal literal [n / 10^k] with [n] and [10^k] below [2^53]: the
    correctly rounded quotient of two exact values is the nearest float to
    the decimal, which is what the literal denotes. *)
Definition decimal (n : Z) (pow10 : Z) : float := div (of_Z n) (of_Z pow10).

End Float64.

Import Float64.

(** ** Python values and exceptions *)

(** The exceptions that the operations of the two cells raise on numbers:
    an unbound name, [%] by zero, an integer too large for a float, [max] of
    an empty list.  The rows of the table are numbers of the types of its
    four columns (see [FrameRecord]); what Python does with a value of
    another type in a column, with a missing column or with a module that
    cannot be imported is outside this model. *)
Inductive py_exn : Type :=
  | NameError (name : string)
  | ZeroDivisionError
  | OverflowError
  | ValueError.

Inductive result (A : Type) : Type :=
  | Ok (a : A)
  | Raise (e : py_exn).

Arguments Ok {A} a.
Arguments Raise {A} e.

Definition bind {A B : Type} (c : result A) (k : A -> result B) : result B :=
  match c with
  | Ok a => k a
  | Raise e => Raise e
  end.

Notation "x <- c ;; k" := (bind c (fun x => k))
  (at level 100, c at next level, right associativity).

(** A list comprehension whose element expression may raise: the first
    exception aborts the whole comprehension. *)
Fixpoint comprehension {A B : Type} (f : A -> result B) (xs : list A)
  : result (list B) :=
  match xs with
  | [] => Ok []
  | x :: xs' =>
      y <- f x ;;
      ys <- comprehension f xs' ;;
      Ok (y :: ys)
  end.

(** [s % d] on Python integers: the result has the sign of the divisor. *)
Definition py_mod (s d : Z) : result Z :=
  if Z.eqb d 0 then Raise ZeroDivisionError else Ok (s mod d).

(** [float(s)] for an integer operand of a mixed operation. *)
Definition py_float (s : Z) : result float :=
  let x := of_Z s in
  if is_infinite x then Raise OverflowError else Ok x.

(** [s + a] with [s] an integer and [a] a float: [s] is converted first. *)
Definition py_add (s : Z) (a : float) : result float :=
  x <- py_float s ;;
  Ok (add x a).

(** [max(xs)]: the first item is kept until a strictly greater one is met. *)
Definition py_max_step (m x : float) : float := if ltb m x then x else m.

Definition py_max (xs : list float) : result float :=
  match xs with
  | [] => Raise ValueError
  | x :: xs' => Ok (foldl py_max_step x xs')
  end.

(** [[x] * n]. *)
Definition py_repeat {A : Type} (x : A) (n : nat) : list A := replicate n x.

(** ** The data *)

(** One row of the CSV file. *)
Record FrameRecord : Type := {
  start_time_s : Z;
  acq_time_s : float;
  n_pixels : Z;
  pixels_per_second : float
}.

(** The [DataFrame]: its rows; [df['c'].tolist()] is the column of field [c]. *)
Abbreviation DataFrame := (list FrameRecord).

Definition tolist {A : Type} (c : FrameRecord -> A) (d : DataFrame) : list A :=
  c <$> d.

(** Modelled from the spec: [timevals.py], which defines [SECONDS_IN_A_DAY],
    is not among the sources; the spec gives the value, 86400 seconds. *)
Definition SECONDS_IN_A_DAY : Z := 86400.

(** ** The kernel's namespace

    The names the two cells read and write.  A name that was never assigned
    is [None]; reading it raises [NameError].  [s] and [a] are the loop
    variables of the list comprehensions, which Python 2 leaves bound in the
    enclosing scope after the comprehension has run. *)
Record Namespace : Type := {
  df : option DataFrame;
  l_values : option (list Z);
  r_values : option (list float);
  t_values : option (list float);
  b_values : option (list float);
  s : option Z;
  a : option float
}.

Definition name {A : Type} (n : string) (v : option A) : result A :=
  match v with
  | Some x => Ok x
  | None => Raise (NameError n)
  end.

(** The last value a loop variable took, or its old binding after an empty
    loop. *)
Definition loop_var {A : Type} (xs : list A) (old : option A) : option A :=
  match list.last xs with
  | Some x => Some x
  | None => old
  end.

(** ** The cell "Preparing the data", statement by statement

    The four assignments of the cell.  Its first statement,
    [from timevals import *], is not modelled as a statement: of the names
    it binds only [SECONDS_IN_A_DAY] is used, and that is the constant
    above. *)

(** [l_values = [(s % SECONDS_IN_A_DAY) for s in df['start_time_s'].tolist()]] *)
Definition assign_l_values (ns : Namespace) : result Namespace :=
  d <- name "df" (df ns) ;;
  let starts := tolist start_time_s d in
  l <- comprehension (fun s => py_mod s SECONDS_IN_A_DAY) starts ;;
  Ok {| df := df ns; l_values := Some l; r_values := r_values ns;
        t_values := t_values ns; b_values := b_values ns;
        s := loop_var starts (s ns); a := a ns |}.

(** [r_values = [s + a for s, a in zip(l_values, df['acq_time_s'].tolist())]] *)
Definition assign_r_values (ns : Namespace) : result Namespace :=
  l <- name "l_values" (l_values ns) ;;
  d <- name "df" (df ns) ;;
  let pairs := zip l (tolist acq_time_s d) in
  r <- comprehension (fun sa => py_add (fst sa) (snd sa)) pairs ;;
  Ok {| df := df ns; l_values := l_values ns; r_values := Some r;
        t_values := t_values ns; b_values := b_values ns;
        s := loop_var (fst <$> pairs) (s ns);
        a := loop_var (snd <$> pairs) (a ns) |}.

(** [t_values = df['pixels_per_second'].tolist()] *)
Definition assign_t_values (ns : Namespace) : result Namespace :=
  d <- name "df" (df ns) ;;
  Ok {| df := df ns; l_values := l_values ns; r_values := r_values ns;
        t_values := Some (tolist pixels_per_second d); b_values := b_values ns;
        s := s ns; a := a ns |}.

(** [b_values = [0.0] * len(l_values)] *)
Definition assign_b_values (ns : Namespace) : result Namespace :=
  l <- name "l_values" (l_values ns) ;;
  Ok {| df := df ns; l_values := l_values ns; r_values := r_values ns;
        t_values := t_values ns; b_values := Some (py_repeat zero (length l));
        s := s ns; a := a ns |}.

Definition prepare_cell (ns : Namespace) : result Namespace :=
  ns1 <- assign_l_values ns ;;
  ns2 <- assign_r_values ns1 ;;
  ns3 <- assign_t_values ns2 ;;
  assign_b_values ns3.

(** ** The cell "Plotting the data"

    [plottools.py] and Bokeh are not among the sources: the figure helper and
    the [quad] method are parameters.  The cell's outcome is the figure bound
    to [p], with the quads drawn on it; [show(p)], which one of the two
    notebooks calls last, displays that figure. *)
Section Plotting.

Context {Figure : Type}.

(** [get_day_plot_figure(y_max)] *)
Variable get_day_plot_figure : float -> Figure.

(** [p.quad(top=.., bottom=.., left=.., right=.., color="#B3DE69")] *)
Variable quad :
  Figure -> list float -> list float -> list Z -> list float -> Figure.

Definition plot_cell (ns : Namespace) : result Figure :=
  t <- name "t_values" (t_values ns) ;;
  y_max <- py_max t ;;
  let p := get_day_plot_figure y_max in
  b <- name "b_values" (b_values ns) ;;
  l <- name "l_values" (l_values ns) ;;
  r <- name "r_values" (r_values ns) ;;
  Ok (quad p t b l r).

End Plotting.

(** ** The rectangles the glyph draws *)

(** One rectangle of the [quad] glyph: entry [i] of each of the four lists. *)
Record RectangleCoordinates : Type := {
  rect_left : Z;
  rect_right : float;
  rect_top : float;
  rect_bottom : float
}.

Definition rectangle (ns : Namespace) (i : nat) : option RectangleCoordinates :=
  l ← l_values ns; r ← r_values ns; t ← t_values ns; b ← b_values ns;
  x0 ← l !! i; x1 ← r !! i; y1 ← t !! i; y0 ← b !! i;
  Some {| rect_left := x0; rect_right := x1; rect_top := y1; rect_bottom := y0 |}.

(** The number of rectangles drawn: [quad] is given four lists of one length. *)
Definition rectangles_drawn (ns : Namespace) : option nat :=
  l ← l_values ns; r ← r_values ns; t ← t_values ns; b ← b_values ns;
  if decide (length r = length l ∧ length t = length l ∧ length b = length l)
  then Some (length l) else None.

(** The per-record algorithm as the spec words it (section 4.1, steps 1 to 4),
    for the day length [seconds_per_day]. *)
Definition spec_rectangle (seconds_per_day : Z) (fr : FrameRecord)
  : RectangleCoordinates :=
  let left := start_time_s fr mod seconds_per_day in
  {| rect_left := left;
     rect_right := add (of_Z left) (acq_time_s fr);
     rect_top := pixels_per_second fr;
     rect_bottom := zero |}.

(** The field constraints of the spec's data model (section 3). *)
Definition frame_valid (fr : FrameRecord) : bool :=
  (0 <=? start_time_s fr) && leb zero (acq_time_s fr)
  && (0 <=? n_pixels fr) && leb zero (pixels_per_second fr).

(** The area of a rectangle, [top * (right - left)], in float arithmetic. *)
Definition area (rc : RectangleCoordinates) : float :=
  mul (rect_top rc) (sub (rect_right rc) (of_Z (rect_left rc))).

(** ** Sample data *)

(** A fresh kernel in which only [df] has been read. *)
Definition loaded (d : DataFrame) : Namespace :=
  {| df := Some d; l_values := None; r_values := None; t_values := None;
     b_values := None; s := None; a := None |}.

(** The first two rows of the notebook's [df.head()]. *)
Definition row0 : FrameRecord :=
  {| start_time_s := 1396447375; acq_time_s := of_Z 60; n_pixels := 57;
     pixels_per_second := decimal 95 100 |}.

Definition row1 : FrameRecord :=
  {| start_time_s := 1396447435; acq_time_s := of_Z 60; n_pixels := 41;
     pixels_per_second := decimal 683333 1000000 |}.

(** A frame that starts one second before midnight and runs two minutes. *)
Definition late_frame : FrameRecord :=
  {| start_time_s := 86399; acq_time_s := of_Z 120; n_pixels := 0;
     pixels_per_second := zero |}.

(** A frame that starts exactly one day after the epoch, and one that starts
    one second before it. *)
Definition midnight_frame : FrameRecord :=
  {| start_time_s := 86400; acq_time_s := of_Z 60; n_pixels := 0;
     pixels_per_second := zero |}.

Definition before_epoch_frame : FrameRecord :=
  {| start_time_s := -1; acq_time_s := of_Z 60; n_pixels := 0;
     pixels_per_second := zero |}.

(** A frame with a negative acquisition time. *)
Definition negative_frame : FrameRecord :=
  {| start_time_s := 1396447375; acq_time_s := of_Z (-5); n_pixels := 57;
     pixels_per_second := decimal 95 100 |}.

(** A figure that records only what the plotting cell hands over. *)
Record Drawn : Type := {
  y_limit : float;
  quads : list float * list float * list Z * list float
}.

Definition sketch_figure (y_max : float) : Drawn :=
  {| y_limit := y_max; quads := ([], [], [], []) |}.

Definition sketch_quad (p : Drawn) (t b : list float) (l : list Z)
  (r : list float) : Drawn :=
  {| y_limit := y_limit p; quads := (t, b, l, r) |}.

(** ** Closed forms of what the preparing cell computes *)

(** The elements of the two comprehensions, for one frame. *)
Definition left_of (fr : FrameRecord) : Z :=
  start_time_s fr mod SECONDS_IN_A_DAY.

Definition right_of (fr : FrameRecord) : float :=
  add (of_Z (left_of fr)) (acq_time_s fr).

(** The namespace the preparing cell leaves behind when [df] holds [d]
    (see [prepare_cell_ok]). *)
Definition prepared (ns : Namespace) (d : DataFrame) : Namespace :=
  {| df := Some d;
     l_values := Some (left_of <$> d);
     r_values := Some (right_of <$> d);
     t_values := Some (pixels_per_second <$> d);
     b_values := Some (replicate (length d) zero);
     s := loop_var (left_of <$> d) (s ns);
     a := loop_var (acq_time_s <$> d) (a ns) |}.

(** ** Running the notebook *)

(** "Run All": the preparing cell, then the plotting cell on the namespace
    it leaves. *)
Definition run_all {Figure : Type} (get_day_plot_figure : float -> Figure)
  (quad : Figure -> list float -> list float -> list Z -> list float -> Figure)
  (ns : Namespace) : result Figure :=
  ns' <- prepare_cell ns ;;
  plot_cell get_day_plot_figure quad ns'.

(** The day a frame starts in, counted from the epoch ([//] on Python
    integers rounds down). *)
Definition day_of (fr : FrameRecord) : Z :=
  start_time_s fr / SECONDS_IN_A_DAY.

(** The same frame recorded [k] days later. *)
Definition days_later (k : Z) (fr : FrameRecord) : FrameRecord :=
  {| start_time_s := start_time_s fr + k * SECONDS_IN_A_DAY;
     acq_time_s := acq_time_s fr;
     n_pixels := n_pixels fr;
     pixels_per_second := pixels_per_second fr |}.

(** Two frames with the same time of day, acquisition time and rate. *)
Definition same_time_of_day (f g : FrameRecord) : Prop :=
  (exists k : Z, start_time_s g = start_time_s f + k * SECONDS_IN_A_DAY) /\
  acq_time_s g = acq_time_s f /\
  pixels_per_second g = pixels_per_second f.

(** A kernel in which [df] has been read and the names [s] and [a] are in
    use for something else. *)
Definition used_kernel (d : DataFrame) : Namespace :=
  {| df := Some d; l_values := None; r_values := None; t_values := None;
     b_values := None; s := Some 0; a := Some zero |}.

(** A frame whose rate is missing, and one whose acquisition time is. *)
Definition no_rate_frame : FrameRecord :=
  {| start_time_s := 1396447495; acq_time_s := of_Z 60; n_pixels := 18;
     pixels_per_second := S754_nan |}.


(** ** Facts about binary64 arithmetic *)

(** The rounding of [SpecFloat] is a shift of the mantissa followed by a
    correction of at most one unit; the facts below follow it step by step,
    with mantissas and exponents as integers. *)
Module Float64Facts.

(** The number of binary digits of a mantissa. *)
Lemma digits2_pos_size (p : positive) : digits2_pos p = Pos.size p.
Proof. induction p as [p IH | p IH |]; simpl; congruence. Qed.

Lemma digits2_log2 (p : positive) : Z.pos (digits2_pos p) = Z.log2 (Z.pos p) + 1.
Proof.
  rewrite digits2_pos_size.
  destruct p as [p | p |]; simpl; try reflexivity; lia.
Qed.

Lemma digits2_bounds (p : positive) :
  2 ^ (Z.pos (digits2_pos p) - 1) <= Z.pos p < 2 ^ Z.pos (digits2_pos p).
Proof.
  rewrite digits2_log2.
  replace (Z.log2 (Z.pos p) + 1 - 1) with (Z.log2 (Z.pos p)) by lia.
  replace (Z.log2 (Z.pos p) + 1) with (Z.succ (Z.log2 (Z.pos p))) by lia.
  apply Z.log2_spec. lia.
Qed.

(** One step of the right shift halves the mantissa. *)
Lemma shr_1_m (mrs : shr_record) :
  0 <= shr_m mrs -> shr_m (shr_1 mrs) = shr_m mrs / 2.
Proof.
  destruct mrs as [m r s0]. cbn [shr_m]. intros Hm.
  destruct m as [| [p | p |] | p]; cbn [shr_1 shr_m]; try lia.
  - reflexivity.
  - apply Z.div_unique with 1; lia.
  - apply Z.div_unique with 0; lia.
  - reflexivity.
Qed.

Lemma iter_shr_1_m (p : positive) :
  forall mrs, 0 <= shr_m mrs ->
  shr_m (SpecFloat.iter_pos shr_1 p mrs) = shr_m mrs / 2 ^ Z.pos p.
Proof.
  assert (Hpow : forall q : positive, 0 < 2 ^ Z.pos q) by (intros; apply Z.pow_pos_nonneg; lia).
  assert (Hnn : forall m q, 0 <= m -> 0 <= m / 2 ^ Z.pos q).
  { intros m q Hm. apply Z.div_pos; [lia | apply Hpow]. }
  induction p as [p IH | p IH |]; intros mrs Hm; cbn [SpecFloat.iter_pos].
  - assert (H1 : 0 <= shr_m (shr_1 mrs)).
    { rewrite shr_1_m by lia. apply Z.div_pos; lia. }
    rewrite IH.
    2:{ rewrite IH by lia. apply Hnn; lia. }
    rewrite IH by lia. rewrite shr_1_m by lia.
    rewrite !Z.div_div by (try apply Hpow; lia).
    replace (Z.pos p~1) with (1 + Z.pos p + Z.pos p) by lia.
    rewrite !Z.pow_add_r by lia. f_equal. lia.
  - rewrite IH.
    2:{ rewrite IH by lia. apply Hnn; lia. }
    rewrite IH by lia.
    rewrite !Z.div_div by (try apply Hpow; lia).
    replace (Z.pos p~0) with (Z.pos p + Z.pos p) by lia.
    rewrite !Z.pow_add_r by lia. reflexivity.
  - apply shr_1_m; lia.
Qed.

(** The exponent a binary64 of a given magnitude must have. *)
Lemma fexp_eq (e : Z) : fexp prec emax e = Z.max (e - 53) (-1074).
Proof. reflexivity. Qed.

Lemma shr_spec (mrs : shr_record) (e n : Z) :
  0 <= shr_m mrs ->
  shr_m (fst (shr mrs e n)) = shr_m mrs / 2 ^ Z.max n 0 /\
  snd (shr mrs e n) = e + Z.max n 0.
Proof.
  intros Hm. destruct n as [| p | p]; cbn [shr fst snd].
  - change (Z.max 0 0) with 0. rewrite Z.pow_0_r, Z.div_1_r. lia.
  - rewrite iter_shr_1_m by lia. replace (Z.max (Z.pos p) 0) with (Z.pos p) by lia. lia.
  - replace (Z.max (Z.neg p) 0) with 0 by lia. rewrite Z.pow_0_r, Z.div_1_r. lia.
Qed.

(** Rounding to nearest moves the truncated mantissa up by at most one. *)
Lemma round_nearest_even_bounds (m : Z) (l : location) :
  m <= round_nearest_even m l <= m + 1.
Proof.
  destruct l as [| []]; cbn [round_nearest_even]; try lia.
  destruct (Z.even m); lia.
Qed.

Lemma div_pow2_lower (m k j : Z) :
  0 <= k -> 0 <= j -> 2 ^ (k + j) <= m -> 2 ^ j <= m / 2 ^ k.
Proof.
  intros Hk Hj Hm. apply Z.div_le_lower_bound.
  - apply Z.pow_pos_nonneg; lia.
  - rewrite <- Z.pow_add_r by lia. exact Hm.
Qed.

Lemma finite_le_finite (mx m : positive) (ex e : Z) :
  ex < e \/ (ex = e /\ Z.pos mx <= Z.pos m) ->
  SFleb (S754_finite false mx ex) (S754_finite false m e) = true.
Proof.
  intros H. unfold SFleb, SFcompare.
  destruct (Z.compare_spec ex e) as [Heq | Hlt | Hgt]; try reflexivity; try lia.
  destruct H as [H | [_ H]]; [lia |].
  change (Pos.compare_cont Eq mx m) with (Pos.compare mx m).
  destruct (Pos.compare_spec mx m); try reflexivity; lia.
Qed.

(** Rounding is monotone against a binary64 below the rounded value: if
    [mx * 2^ex <= M * 2^ez] then the rounding of [M * 2^ez] is not below
    the binary64 [mx * 2^ex]. *)
Lemma binary_round_ge (M mx : positive) (ez ex : Z) :
  bounded prec emax mx ex = true ->
  ez <= ex ->
  Z.pos mx * 2 ^ (ex - ez) <= Z.pos M ->
  SFleb (S754_finite false mx ex) (binary_round prec emax false M ez) = true.
Proof.
  intros Hb Hez HM.
  unfold bounded, canonical_mantissa in Hb.
  apply andb_true_iff in Hb as [Hc Hmax].
  apply Z.eqb_eq in Hc. apply Z.leb_le in Hmax.
  rewrite fexp_eq in Hc. change (emax - prec) with 971 in Hmax.
  pose proof (digits2_bounds mx) as [Hx1 Hx2].
  pose proof (digits2_bounds M) as [HM1 HM2].
  set (dx := Z.pos (digits2_pos mx)) in *.
  set (d := Z.pos (digits2_pos M)) in *.
  assert (Hdx : 0 < dx) by (unfold dx; lia).
  assert (Hd : 0 < d) by (unfold d; lia).
  assert (Hdd : dx + ex <= d + ez).
  { assert (H : 2 ^ (dx - 1 + (ex - ez)) < 2 ^ d).
    { rewrite Z.pow_add_r by lia.
      eapply Z.le_lt_trans; [| exact HM2].
      etransitivity; [| exact HM].
      apply Z.mul_le_mono_nonneg_r; [apply Z.pow_nonneg; lia | exact Hx1]. }
    apply Z.pow_lt_mono_r_iff in H; lia. }
  unfold binary_round.
  fold d. rewrite fexp_eq.
  set (fe := Z.max (d + ez - 53) (-1074)).
  assert (Hfe : ex <= fe) by (unfold fe; lia).
  assert (Hsh : shl_align M ez fe = (M, ez)).
  { unfold shl_align. destruct (fe - ez) eqn:E; try reflexivity. lia. }
  rewrite Hsh. unfold binary_round_aux, shr_fexp.
  cbn [Zdigits2 shr_record_of_loc]. fold d. rewrite fexp_eq. fold fe.
  pose proof (shr_spec {| shr_m := Z.pos M; shr_r := false; shr_s := false |}
                ez (fe - ez)) as [Hm1 He1]; [cbn; lia |].
  destruct (shr _ ez (fe - ez)) as [mrs1 e1]. cbn [fst snd shr_m] in Hm1, He1.
  replace (Z.max (fe - ez) 0) with (fe - ez) in Hm1, He1 by lia.
  assert (He1' : e1 = fe) by lia. clear He1. subst e1.
  pose proof (round_nearest_even_bounds (shr_m mrs1) (loc_of_shr_record mrs1)) as Hr.
  set (m2 := round_nearest_even (shr_m mrs1) (loc_of_shr_record mrs1)) in *.
  assert (Hm1pos : 1 <= shr_m mrs1 /\ (fe = ex -> Z.pos mx <= shr_m mrs1)).
  { rewrite Hm1. split.
    - destruct (Z.eq_dec fe ex) as [E | E].
      + rewrite E. transitivity (Z.pos mx); [lia |].
        apply Z.div_le_lower_bound; [apply Z.pow_pos_nonneg; lia | lia].
      + assert (fe = d + ez - 53) by (unfold fe in *; lia).
        replace (fe - ez) with (d - 53) by lia.
        transitivity (2 ^ 52); [lia |].
        apply div_pow2_lower; try lia.
        replace (d - 53 + 52) with (d - 1) by lia. exact HM1.
    - intros E. rewrite E.
      apply Z.div_le_lower_bound; [apply Z.pow_pos_nonneg; lia | lia]. }
  destruct Hm1pos as [Hm1pos Hm1x].
  assert (Hm2pos : 1 <= m2) by lia.
  destruct m2 as [| q | q] eqn:Eq2; try lia.
  cbn [Zdigits2]. rewrite fexp_eq.
  pose proof (digits2_bounds q) as [Hq1 Hq2].
  set (dq := Z.pos (digits2_pos q)) in *.
  assert (Hdq : 0 < dq) by (unfold dq; lia).
  pose proof (shr_spec {| shr_m := Z.pos q; shr_r := false; shr_s := false |}
                fe (Z.max (dq + fe - 53) (-1074) - fe)) as [Hm3 He3]; [cbn; lia |].
  destruct (shr _ fe _) as [mrs3 e3]. cbn [fst snd shr_m] in Hm3, He3.
  set (n2 := Z.max (dq + fe - 53) (-1074) - fe) in *.
  assert (Hfe2 : -1074 <= fe) by (unfold fe; lia).
  assert (Hfin : 1 <= shr_m mrs3 /\ (ex < e3 \/ (ex = e3 /\ Z.pos mx <= shr_m mrs3))).
  { destruct (Z.le_gt_cases n2 0) as [Hn | Hn].
    - replace (Z.max n2 0) with 0 in Hm3, He3 by lia.
      rewrite Z.pow_0_r, Z.div_1_r in Hm3. rewrite Hm3.
      split; [lia |].
      destruct (Z.eq_dec fe ex) as [E | E]; [right | left]; lia.
    - replace (Z.max n2 0) with (dq - 53) in Hm3, He3 by lia.
      assert (2 ^ 52 <= shr_m mrs3).
      { rewrite Hm3. apply div_pow2_lower; try lia.
        replace (dq - 53 + 52) with (dq - 1) by lia. exact Hq1. }
      split; [lia | left; lia]. }
  destruct Hfin as [Hpos Hcmp].
  destruct (shr_m mrs3) as [| mf | mf]; try lia.
  destruct (Z.leb e3 (emax - prec)).
  - apply finite_le_finite. exact Hcmp.
  - reflexivity.
Qed.

Lemma iter_xO_spec (m k : positive) :
  Z.pos (Pos.iter xO m k) = Z.pos m * 2 ^ Z.pos k /\
  Z.pos (digits2_pos (Pos.iter xO m k)) = Z.pos (digits2_pos m) + Z.pos k.
Proof.
  induction k as [| k [IH1 IH2]] using Pos.peano_ind.
  - cbn [Pos.iter digits2_pos]. split; lia.
  - rewrite Pos.iter_succ. cbn [digits2_pos].
    rewrite Pos2Z.inj_xO, Pos2Z.inj_succ, IH1, Pos2Z.inj_succ, IH2.
    rewrite Z.pow_succ_r by lia. split; lia.
Qed.

(** Aligning a mantissa to a smaller exponent multiplies it by a power of two. *)
Lemma shl_align_spec (m : positive) (e e' : Z) :
  e' <= e ->
  snd (shl_align m e e') = e' /\
  Z.pos (fst (shl_align m e e')) = Z.pos m * 2 ^ (e - e') /\
  Z.pos (digits2_pos (fst (shl_align m e e'))) = Z.pos (digits2_pos m) + (e - e').
Proof.
  intros He. unfold shl_align. destruct (e' - e) as [| p | p] eqn:E; try lia.
  - assert (e' = e) by lia. subst e'. cbn [fst snd].
    rewrite Z.sub_diag, Z.pow_0_r. lia.
  - cbn [fst snd]. destruct (iter_xO_spec m p) as [H1 H2].
    replace (e - e') with (Z.pos p) by lia. lia.
Qed.

(** A mantissa that already fits is left alone. *)
Lemma binary_round_aux_canonical (sx : bool) (m : positive) (e : Z) :
  bounded prec emax m e = true ->
  binary_round_aux prec emax sx (Z.pos m) e loc_Exact = S754_finite sx m e.
Proof.
  intros Hb. unfold bounded, canonical_mantissa in Hb.
  apply andb_true_iff in Hb as [Hc Hmax]. apply Z.eqb_eq in Hc.
  unfold binary_round_aux, shr_fexp. cbn [Zdigits2 shr_record_of_loc].
  rewrite Hc, Z.sub_diag. cbn [shr shr_m loc_of_shr_record round_nearest_even Zdigits2].
  rewrite Hc, Z.sub_diag. cbn [shr shr_m]. rewrite Hmax. reflexivity.
Qed.

(** A positive integer below [2^53] converts exactly. *)
Lemma of_Z_exact (z : positive) :
  Z.pos z < 2 ^ 53 ->
  exists m : positive,
    of_Z (Z.pos z) = S754_finite false m (Z.pos (digits2_pos z) - 53) /\
    bounded prec emax m (Z.pos (digits2_pos z) - 53) = true /\
    Z.pos (digits2_pos z) <= 53 /\
    Z.pos m = Z.pos z * 2 ^ (53 - Z.pos (digits2_pos z)).
Proof.
  intros Hz. unfold of_Z, binary_normalize, binary_round.
  pose proof (digits2_bounds z) as [Hz1 Hz2].
  set (d := Z.pos (digits2_pos z)) in *.
  assert (Hd : 0 < d <= 53).
  { split; [unfold d; lia |].
    assert (H : 2 ^ (d - 1) < 2 ^ 53) by lia.
    apply Z.pow_lt_mono_r_iff in H; lia. }
  rewrite fexp_eq. replace (Z.max (d + 0 - 53) (-1074)) with (d - 53) by lia.
  destruct (shl_align_spec z 0 (d - 53)) as (He & Hm & Hdig); [lia |].
  destruct (shl_align z 0 (d - 53)) as [mz ez]. cbn [fst snd] in He, Hm, Hdig.
  subst ez. fold d in Hdig.
  assert (Hb : bounded prec emax mz (d - 53) = true).
  { unfold bounded, canonical_mantissa. rewrite fexp_eq.
    apply andb_true_iff. split; [apply Z.eqb_eq | apply Z.leb_le]; [lia |].
    change (emax - prec) with 971. lia. }
  rewrite (binary_round_aux_canonical false mz (d - 53) Hb).
  exists mz. repeat split; try assumption; try lia.
  rewrite Hm. f_equal. f_equal. lia.
Qed.

Lemma SFleb_refl (x : spec_float) : x <> S754_nan -> SFleb x x = true.
Proof.
  destruct x as [sx | sx | | sx m e]; intros Hx; try congruence;
    try (destruct sx; reflexivity).
  unfold SFleb, SFcompare. rewrite Z.compare_refl.
  change (Pos.compare_cont Eq m m) with (Pos.compare m m).
  rewrite Pos.compare_refl. destruct sx; reflexivity.
Qed.

(** Adding a non-negative float never takes a positive binary64 down. *)
Lemma add_nonneg_ge (mx : positive) (ex : Z) (a : spec_float) :
  bounded prec emax mx ex = true ->
  SFleb (S754_zero false) a = true ->
  SFleb (S754_finite false mx ex) (SFadd prec emax (S754_finite false mx ex) a) = true.
Proof.
  intros Hb Ha.
  destruct a as [sa | sa | | sa ma ea]; cbn [SFadd].
  - apply SFleb_refl. discriminate.
  - destruct sa; [discriminate Ha | reflexivity].
  - discriminate Ha.
  - destruct sa; [discriminate Ha |].
    set (ez := Z.min ex ea).
    destruct (shl_align_spec mx ex ez) as (_ & Hm1 & _); [unfold ez; lia |].
    cbn [cond_Zopp Z.add binary_normalize].
    apply binary_round_ge; [exact Hb | unfold ez; lia |].
    rewrite Pos2Z.inj_add, Hm1. lia.
Qed.

(** Shifting out zero bits loses nothing. *)
Lemma shr_1_even (k : Z) :
  shr_1 {| shr_m := 2 * k; shr_r := false; shr_s := false |}
  = {| shr_m := k; shr_r := false; shr_s := false |}.
Proof. destruct k as [| p | p]; reflexivity. Qed.

Lemma iter_shr_1_exact (p : positive) :
  forall m : Z,
  SpecFloat.iter_pos shr_1 p {| shr_m := m * 2 ^ Z.pos p; shr_r := false; shr_s := false |}
  = {| shr_m := m; shr_r := false; shr_s := false |}.
Proof.
  induction p as [p IH | p IH |]; intros m; cbn [SpecFloat.iter_pos].
  - replace (m * 2 ^ Z.pos p~1) with (2 * (m * 2 ^ Z.pos p * 2 ^ Z.pos p)).
    + rewrite shr_1_even, IH, IH. reflexivity.
    + replace (Z.pos p~1) with (1 + Z.pos p + Z.pos p) by lia.
      rewrite !Z.pow_add_r by lia. lia.
  - replace (m * 2 ^ Z.pos p~0) with (m * 2 ^ Z.pos p * 2 ^ Z.pos p).
    + rewrite IH, IH. reflexivity.
    + replace (Z.pos p~0) with (Z.pos p + Z.pos p) by lia.
      rewrite !Z.pow_add_r by lia. lia.
  - replace (m * 2 ^ 1) with (2 * m) by lia. apply shr_1_even.
Qed.

Lemma digits2_mul_pow2 (m q : positive) (k : Z) :
  0 <= k -> Z.pos q = Z.pos m * 2 ^ k ->
  Z.pos (digits2_pos q) = Z.pos (digits2_pos m) + k.
Proof.
  intros Hk Hq. rewrite !digits2_log2, Hq, Z.log2_mul_pow2 by lia. lia.
Qed.

(** Rounding a value that a binary64 holds gives that binary64. *)
Lemma binary_round_exact (sx : bool) (M m : positive) (ez e : Z) :
  bounded prec emax m e = true ->
  (e <= ez /\ Z.pos m = Z.pos M * 2 ^ (ez - e)) \/
  (ez <= e /\ Z.pos M = Z.pos m * 2 ^ (e - ez)) ->
  binary_round prec emax sx M ez = S754_finite sx m e.
Proof.
  intros Hb Hv. pose proof Hb as Hb'.
  unfold bounded, canonical_mantissa in Hb'.
  apply andb_true_iff in Hb' as [Hc Hmax]. apply Z.eqb_eq in Hc.
  unfold binary_round.
  assert (Hfe : fexp prec emax (Z.pos (digits2_pos M) + ez) = e).
  { etransitivity; [| exact Hc]. f_equal.
    destruct Hv as [[He Hm] | [He HM]].
    - rewrite (digits2_mul_pow2 M m (ez - e)) by (try assumption; lia). lia.
    - rewrite (digits2_mul_pow2 m M (e - ez)) by (try assumption; lia). lia. }
  rewrite Hfe.
  destruct (Z.le_gt_cases e ez) as [Hle | Hgt].
  - assert (Hm : Z.pos m = Z.pos M * 2 ^ (ez - e)).
    { destruct Hv as [[_ Hm] | [He HM]]; [exact Hm |].
      replace (ez - e) with 0 by lia. replace (e - ez) with 0 in HM by lia.
      rewrite Z.pow_0_r in *. lia. }
    destruct (shl_align_spec M ez e Hle) as (H1 & H2 & _).
    destruct (shl_align M ez e) as [mz e']. cbn [fst snd] in H1, H2. subst e'.
    assert (mz = m) by lia. subst mz.
    apply binary_round_aux_canonical. exact Hb.
  - destruct Hv as [[He Hm] | [He HM]]; [lia |].
    assert (Hsh : shl_align M ez e = (M, ez)).
    { unfold shl_align. destruct (e - ez) eqn:E; try reflexivity. lia. }
    rewrite Hsh. unfold binary_round_aux, shr_fexp.
    cbn [Zdigits2 shr_record_of_loc]. rewrite Hfe.
    destruct (e - ez) as [| p | p] eqn:E; try lia.
    cbn [shr]. rewrite HM, iter_shr_1_exact.
    cbn [shr_m loc_of_shr_record round_nearest_even Zdigits2].
    replace (ez + Z.pos p) with e by lia.
    rewrite Hc, Z.sub_diag. cbn [shr shr_m]. rewrite Hmax. reflexivity.
Qed.

Lemma digits2_le (p q : positive) :
  Z.pos p <= Z.pos q -> Z.pos (digits2_pos p) <= Z.pos (digits2_pos q).
Proof.
  intros H. rewrite !digits2_log2.
  pose proof (Z.log2_le_mono (Z.pos p) (Z.pos q) H). lia.
Qed.

Lemma scale_pow2 (z i j : Z) :
  0 <= i -> 0 <= j -> z * 2 ^ i * 2 ^ j = z * 2 ^ (i + j).
Proof. intros Hi Hj. rewrite Z.pow_add_r by lia. lia. Qed.

(** Integers add exactly as long as the sum stays below [2^53]. *)
Lemma add_of_Z_pos (l k : positive) :
  Z.pos l + Z.pos k < 2 ^ 53 ->
  SFadd prec emax (of_Z (Z.pos l)) (of_Z (Z.pos k)) = of_Z (Z.pos l + Z.pos k).
Proof.
  intros Hsum.
  destruct (of_Z_exact l) as (m1 & E1 & B1 & D1 & V1); [lia |].
  destruct (of_Z_exact k) as (m2 & E2 & B2 & D2 & V2); [lia |].
  change (Z.pos l + Z.pos k) with (Z.pos (l + k)) in *.
  destruct (of_Z_exact (l + k)) as (m3 & E3 & B3 & D3 & V3); [lia |].
  pose proof (digits2_le l (l + k)) as L1.
  pose proof (digits2_le k (l + k)) as L2.
  rewrite E1, E2, E3. cbn [SFadd].
  set (e1 := Z.pos (digits2_pos l) - 53) in *.
  set (e2 := Z.pos (digits2_pos k) - 53) in *.
  set (e3 := Z.pos (digits2_pos (l + k)) - 53) in *.
  set (ez := Z.min e1 e2).
  destruct (shl_align_spec m1 e1 ez) as (_ & A1 & _); [unfold ez; lia |].
  destruct (shl_align_spec m2 e2 ez) as (_ & A2 & _); [unfold ez; lia |].
  cbn [cond_Zopp Z.add binary_normalize].
  apply binary_round_exact; [exact B3 | right].
  split; [unfold ez, e1, e2, e3; lia |].
  rewrite Pos2Z.inj_add, A1, A2, V1, V2, V3.
  rewrite !scale_pow2 by (unfold ez, e1, e2, e3; lia).
  replace (53 - Z.pos (digits2_pos l) + (e1 - ez)) with (- ez) by (unfold e1; lia).
  replace (53 - Z.pos (digits2_pos k) + (e2 - ez)) with (- ez) by (unfold e2; lia).
  replace (53 - Z.pos (digits2_pos (l + k)) + (e3 - ez)) with (- ez) by (unfold e3; lia).
  lia.
Qed.

(** So do differences of integers below [2^53]. *)
Lemma sub_of_Z_pos (n l : positive) :
  Z.pos l < Z.pos n < 2 ^ 53 ->
  SFsub prec emax (of_Z (Z.pos n)) (of_Z (Z.pos l)) = of_Z (Z.pos n - Z.pos l).
Proof.
  intros Hnl.
  destruct (of_Z_exact n) as (m1 & E1 & B1 & D1 & V1); [lia |].
  destruct (of_Z_exact l) as (m2 & E2 & B2 & D2 & V2); [lia |].
  destruct (Z.pos n - Z.pos l) as [| k | k] eqn:Ek; try lia.
  destruct (of_Z_exact k) as (m3 & E3 & B3 & D3 & V3); [lia |].
  pose proof (digits2_le l n) as L1.
  rewrite E1, E2, E3. cbn [SFsub].
  set (e1 := Z.pos (digits2_pos n) - 53) in *.
  set (e2 := Z.pos (digits2_pos l) - 53) in *.
  set (e3 := Z.pos (digits2_pos k) - 53) in *.
  set (ez := Z.min e1 e2).
  destruct (shl_align_spec m1 e1 ez) as (_ & A1 & _); [unfold ez; lia |].
  destruct (shl_align_spec m2 e2 ez) as (_ & A2 & _); [unfold ez; lia |].
  cbn [cond_Zopp].
  assert (Hez : 0 <= - ez) by (unfold ez, e1, e2; lia).
  assert (P1 : Z.pos (fst (shl_align m1 e1 ez)) = Z.pos n * 2 ^ (- ez)).
  { rewrite A1, V1, scale_pow2 by (unfold ez, e1, e2; lia).
    f_equal. f_equal. unfold e1. lia. }
  assert (P2 : Z.pos (fst (shl_align m2 e2 ez)) = Z.pos l * 2 ^ (- ez)).
  { rewrite A2, V2, scale_pow2 by (unfold ez, e1, e2; lia).
    f_equal. f_equal. unfold e2. lia. }
  assert (Hpow : 0 < 2 ^ (- ez)) by (apply Z.pow_pos_nonneg; lia).
  assert (Hdiff : Z.pos (fst (shl_align m1 e1 ez)) - Z.pos (fst (shl_align m2 e2 ez))
                  = Z.pos k * 2 ^ (- ez)).
  { rewrite P1, P2, <- Ek. lia. }
  destruct (Z.pos (fst (shl_align m1 e1 ez)) - Z.pos (fst (shl_align m2 e2 ez)))
    as [| q | q] eqn:Eq; try lia.
  cbn [binary_normalize].
  apply binary_round_exact; [exact B3 |].
  destruct (Z.le_gt_cases e3 ez) as [Hle | Hgt]; [left | right].
  - split; [exact Hle |].
    rewrite Hdiff, V3, scale_pow2 by (unfold e3; lia).
    f_equal. f_equal. unfold e3. lia.
  - split; [lia |].
    rewrite Hdiff, V3, scale_pow2 by (unfold e3; lia).
    f_equal. f_equal. unfold e3. lia.
Qed.

(** The width [(l + k) - l] of a whole number of seconds is exact. *)
Lemma width_of_Z (l k : Z) :
  0 <= l -> 0 <= k -> l + k < 2 ^ 53 ->
  SFsub prec emax (SFadd prec emax (of_Z l) (of_Z k)) (of_Z l) = of_Z k.
Proof.
  intros Hl Hk Hsum.
  destruct l as [| l | l]; try lia; destruct k as [| k | k]; try lia.
  - reflexivity.
  - destruct (of_Z_exact k) as (m & E & _); [lia |]. rewrite E. reflexivity.
  - destruct (of_Z_exact l) as (m & E & _); [lia |]. rewrite E.
    cbn [of_Z binary_normalize SFadd SFsub cond_Zopp].
    rewrite Z.sub_diag. reflexivity.
  - rewrite add_of_Z_pos by lia.
    change (Z.pos l + Z.pos k) with (Z.pos (l + k)).
    rewrite sub_of_Z_pos by lia. f_equal. lia.
Qed.

Ltac compare_cases :=
  change (Pos.compare_cont Eq) with Pos.compare in *;
  repeat match goal with
  | H : context [Z.compare ?x ?y] |- _ => destruct (Z.compare_spec x y)
  | |- context [Z.compare ?x ?y] => destruct (Z.compare_spec x y)
  | H : context [Pos.compare ?x ?y] |- _ => destruct (Pos.compare_spec x y)
  | |- context [Pos.compare ?x ?y] => destruct (Pos.compare_spec x y)
  end;
  cbn [CompOpp] in *; try reflexivity; try discriminate; try lia.

(** [<=] on floats is transitive, and total away from NaN. *)
Lemma SFleb_trans (x y z : spec_float) :
  SFleb x y = true -> SFleb y z = true -> SFleb x z = true.
Proof.
  unfold SFleb, SFcompare.
  destruct x as [[] | [] | | [] mx ex], y as [[] | [] | | [] my ey],
    z as [[] | [] | | [] mz ez];
    intros Hxy Hyz; try reflexivity; try discriminate; compare_cases.
Qed.

Lemma SFltb_SFleb (x y : spec_float) : SFltb x y = true -> SFleb x y = true.
Proof.
  unfold SFltb, SFleb. destruct (SFcompare x y) as [[] |]; congruence.
Qed.

Lemma SFltb_false_SFleb (x y : spec_float) :
  x <> S754_nan -> y <> S754_nan -> SFltb x y = false -> SFleb y x = true.
Proof.
  unfold SFltb, SFleb, SFcompare.
  destruct x as [[] | [] | | [] mx ex], y as [[] | [] | | [] my ey];
    intros Hx Hy H; try reflexivity; try discriminate; try congruence; compare_cases.
Qed.

End Float64Facts.

Import Float64Facts.

(** ** Facts about the Python operations *)

Lemma comprehension_total {A B : Type} (f : A -> result B) (g : A -> B)
  (xs : list A) :
  (forall x, x ∈ xs -> f x = Ok (g x)) ->
  comprehension f xs = Ok (g <$> xs).
Proof.
  induction xs as [| x xs IH]; intros Hf; cbn [comprehension].
  - reflexivity.
  - rewrite Hf by apply list_elem_of_here.
    cbn [bind]. rewrite IH; [reflexivity |].
    intros y Hy. apply Hf. apply list_elem_of_further. exact Hy.
Qed.

Lemma py_mod_day (x : Z) : py_mod x SECONDS_IN_A_DAY = Ok (x mod SECONDS_IN_A_DAY).
Proof. reflexivity. Qed.

Lemma mod_day_range (x : Z) : 0 <= x mod SECONDS_IN_A_DAY < SECONDS_IN_A_DAY.
Proof. apply Z.mod_pos_bound. reflexivity. Qed.

Lemma left_of_range (fr : FrameRecord) : 0 <= left_of fr < 86400.
Proof. apply mod_day_range. Qed.

(** Below [2^53] the conversion to float neither rounds nor overflows. *)
Lemma py_float_small (x : Z) : 0 <= x < 2 ^ 53 -> py_float x = Ok (of_Z x).
Proof.
  intros Hx. unfold py_float. destruct x as [| p | p]; try lia.
  - reflexivity.
  - destruct (of_Z_exact p) as (m & E & _); [lia |].
    unfold of_Z in *. rewrite E. reflexivity.
Qed.

Lemma py_add_left_of (fr : FrameRecord) :
  py_add (left_of fr) (acq_time_s fr) = Ok (right_of fr).
Proof.
  unfold py_add. pose proof (left_of_range fr).
  rewrite py_float_small by lia. reflexivity.
Qed.

Lemma zip_columns {A B C : Type} (f : A -> B) (g : A -> C) (xs : list A) :
  zip (f <$> xs) (g <$> xs) = (fun x => (f x, g x)) <$> xs.
Proof. induction xs as [| x xs IH]; cbn; [reflexivity | now rewrite IH]. Qed.

Lemma loop_var_fmap {A B C : Type} (f : A -> B) (g : A -> C) (xs : list A)
  (old : option B) :
  loop_var (f <$> xs) (loop_var (f <$> xs) old) = loop_var (f <$> xs) old.
Proof. unfold loop_var. destruct (list.last (f <$> xs)); reflexivity. Qed.

Lemma loop_var_columns {A B : Type} (f g : A -> B) (xs : list A)
  (old : option B) :
  loop_var (f <$> xs) (loop_var (g <$> xs) old) = loop_var (f <$> xs) old.
Proof. destruct xs as [| x xs] using rev_ind; [reflexivity |].
  unfold loop_var. rewrite !fmap_app. cbn [fmap list_fmap].
  rewrite !last_snoc. reflexivity.
Qed.

(** [float(left) <= left + acq] for a frame whose acquisition time is not
    negative. *)
Lemma right_of_ge (fr : FrameRecord) :
  leb zero (acq_time_s fr) = true ->
  leb (of_Z (left_of fr)) (right_of fr) = true.
Proof.
  intros Ha. unfold right_of. pose proof (left_of_range fr) as Hl.
  destruct (left_of fr) as [| p | p]; try lia.
  - change (of_Z 0) with (S754_zero false).
    destruct (acq_time_s fr) as [[] | [] | | [] m e];
      try discriminate Ha; reflexivity.
  - destruct (of_Z_exact p) as (m & E & Hb & _); [lia |].
    unfold of_Z in *. rewrite E. apply add_nonneg_ge; assumption.
Qed.

(** [max] of a list without NaN is a greatest element of the list. *)
Lemma foldl_py_max_step (xs : list float) :
  forall x : float,
  x <> S754_nan -> Forall (fun y => y <> S754_nan) xs ->
  foldl py_max_step x xs ∈ x :: xs /\
  Forall (fun y => leb y (foldl py_max_step x xs) = true) (x :: xs).
Proof.
  induction xs as [| y xs IH]; intros x Hx Hxs; cbn [foldl].
  - split; [apply list_elem_of_here |].
    constructor; [apply SFleb_refl; exact Hx | constructor].
  - inversion Hxs as [| y' xs' Hy Hxs' E]; subst.
    set (x' := py_max_step x y).
    assert (Hx' : x' <> S754_nan /\ (x' = x \/ x' = y) /\
                  leb x x' = true /\ leb y x' = true).
    { unfold x', py_max_step, ltb, leb.
      destruct (SFltb x y) eqn:E.
      - repeat split; [exact Hy | right; reflexivity | | ].
        + apply SFltb_SFleb; exact E.
        + apply SFleb_refl; exact Hy.
      - repeat split; [exact Hx | left; reflexivity | | ].
        + apply SFleb_refl; exact Hx.
        + apply SFltb_false_SFleb; assumption. }
    destruct Hx' as (Hn & Hin & Hxx' & Hyx').
    destruct (IH x' Hn Hxs') as [Hmem Hall].
    inversion Hall as [| z zs Hx'm Hrest E]; subst.
    split.
    + apply elem_of_cons in Hmem as [-> | Hmem].
      * destruct Hin as [-> | ->];
          [apply list_elem_of_here
          | apply list_elem_of_further, list_elem_of_here].
      * do 2 apply list_elem_of_further. exact Hmem.
    + constructor; [eapply SFleb_trans; eassumption |].
      constructor; [eapply SFleb_trans; eassumption | exact Hrest].
Qed.

Lemma frame_valid_not_nan (fr : FrameRecord) :
  frame_valid fr = true -> pixels_per_second fr <> S754_nan.
Proof.
  unfold frame_valid. rewrite !andb_true_iff. intros (_ & H) E.
  rewrite E in H. discriminate H.
Qed.

(** ** The preparing cell in closed form *)

Lemma prepare_cell_ok (ns : Namespace) (d : DataFrame) :
  df ns = Some d -> prepare_cell ns = Ok (prepared ns d).
Proof.
  intros Hdf. unfold prepare_cell, assign_l_values.
  rewrite Hdf. cbn [name bind]. unfold tolist.
  rewrite (comprehension_total _ (fun x => x mod SECONDS_IN_A_DAY))
    by (intros; apply py_mod_day).
  rewrite <- list_fmap_compose. change (_ ∘ start_time_s) with left_of.
  cbn [bind]. unfold assign_r_values.
  cbn [df l_values r_values t_values b_values s a name bind].
  unfold tolist. rewrite zip_columns.
  rewrite (comprehension_total _ (fun sa => add (of_Z (fst sa)) (snd sa))).
  2:{ intros [x y] Hin. apply list_elem_of_fmap in Hin as (fr & E & _).
      injection E as -> ->. apply py_add_left_of. }
  rewrite <- !list_fmap_compose. cbn [bind].
  unfold assign_t_values.
  cbn [df l_values r_values t_values b_values s a name bind].
  unfold assign_b_values.
  cbn [df l_values r_values t_values b_values s a name bind].
  unfold prepared, py_repeat, tolist. rewrite length_fmap.
  f_equal. f_equal.
  change (fst ∘ _) with left_of. apply loop_var_columns.
Qed.

Lemma prepared_again (ns : Namespace) (d : DataFrame) :
  prepared (prepared ns d) d = prepared ns d.
Proof.
  unfold prepared. cbn [s a]. f_equal; unfold loop_var;
    match goal with |- context [list.last ?l] => destruct (list.last l) end;
    reflexivity.
Qed.

Lemma rectangle_prepared (ns : Namespace) (d : DataFrame) (i : nat) :
  rectangle (prepared ns d) i = spec_rectangle SECONDS_IN_A_DAY <$> d !! i.
Proof.
  unfold rectangle, prepared. cbn [l_values r_values t_values b_values].
  cbn [mbind option_bind]. rewrite !list_lookup_fmap.
  destruct (d !! i) as [fr |] eqn:E; [| reflexivity].
  cbn [fmap option_fmap option_map mbind option_bind].
  rewrite lookup_replicate_2 by (eapply lookup_lt_Some; exact E).
  reflexivity.
Qed.

Lemma rectangles_drawn_prepared (ns : Namespace) (d : DataFrame) :
  rectangles_drawn (prepared ns d) = Some (length d).
Proof.
  unfold rectangles_drawn, prepared.
  cbn [l_values r_values t_values b_values mbind option_bind].
  rewrite !length_fmap, length_replicate.
  rewrite decide_True by auto. reflexivity.
Qed.

(** ** The notebook's data, evaluated *)

(** The spec's concrete scenario: the first row of the table. *)
Example first_row_rectangle :
  prepare_cell (loaded [row0]) = Ok (prepared (loaded [row0]) [row0]) /\
  rectangle (prepared (loaded [row0]) [row0]) 0 =
    Some {| rect_left := 50575; rect_right := of_Z 50635;
            rect_top := decimal 95 100; rect_bottom := zero |}.
Proof. split; [apply prepare_cell_ok |]; reflexivity. Qed.

(** Python's [%] follows the sign of the divisor. *)
Example py_mod_negative : py_mod (-1) SECONDS_IN_A_DAY = Ok 86399.
Proof. reflexivity. Qed.

Example py_mod_by_zero : py_mod 5 0 = Raise ZeroDivisionError.
Proof. reflexivity. Qed.

(** An integer too large for a float cannot be added to one. *)
Example py_add_overflow : py_add (2 ^ 1024) zero = Raise OverflowError.
Proof. vm_compute. reflexivity. Qed.

(** The sample values are binary64 values. *)
Example sample_floats_valid :
  forallb valid [of_Z 60; of_Z 120; of_Z (-5); decimal 95 100;
                 decimal 683333 1000000; of_Z 86519] = true.
Proof. vm_compute. reflexivity. Qed.

(** [max] keeps the first of two equal items, and ignores a NaN that is not
    in first place. *)
Example py_max_examples :
  py_max [of_Z 1; of_Z 3; of_Z 2] = Ok (of_Z 3) /\
  py_max [zero; S754_zero true] = Ok zero /\
  py_max [of_Z 1; S754_nan; of_Z 2] = Ok (of_Z 2) /\
  py_max [S754_nan; of_Z 2] = Ok S754_nan.
Proof. repeat split; vm_compute; reflexivity. Qed.

(** ** The claims *)

(** C1. The left coordinate of every rectangle is the frame's start time
    modulo the seconds in a day (86400), with the non-negative result of
    Python's [%]: it lies in [0, 86400) whatever the sign of the start time,
    and a start time of exactly 86400 gives 0. *)
Theorem left_is_time_of_day (ns : Namespace) (d : DataFrame) :
  df ns = Some d ->
  exists (ns' : Namespace) (l : list Z),
    prepare_cell ns = Ok ns' /\ l_values ns' = Some l /\
    SECONDS_IN_A_DAY = 86400 /\
    (forall i : nat,
       l !! i = (fun fr => start_time_s fr mod SECONDS_IN_A_DAY) <$> d !! i) /\
    (forall (i : nat) (x : Z), l !! i = Some x -> 0 <= x < SECONDS_IN_A_DAY) /\
    (forall (i : nat) (fr : FrameRecord),
       d !! i = Some fr -> start_time_s fr = 86400 -> l !! i = Some 0).
Proof.
  intros Hdf. exists (prepared ns d), (left_of <$> d).
  split; [apply prepare_cell_ok; exact Hdf |].
  split; [reflexivity |]. split; [reflexivity |].
  split; [intros i; apply list_lookup_fmap |].
  split.
  - intros i x Hx. rewrite list_lookup_fmap in Hx.
    destruct (d !! i) as [fr |]; [| discriminate Hx].
    injection Hx as <-. apply mod_day_range.
  - intros i fr Hfr Hs. rewrite list_lookup_fmap, Hfr.
    cbn. unfold left_of. rewrite Hs. reflexivity.
Qed.

Lemma left_is_time_of_day_witness :
  df (loaded [row0; midnight_frame; before_epoch_frame])
    = Some [row0; midnight_frame; before_epoch_frame] /\
  exists (ns' : Namespace) (l : list Z),
    prepare_cell (loaded [row0; midnight_frame; before_epoch_frame]) = Ok ns' /\
    l_values ns' = Some l /\
    l !! 0%nat = Some 50575 /\ l !! 1%nat = Some 0 /\ l !! 2%nat = Some 86399 /\
    forall (i : nat) (x : Z), l !! i = Some x -> 0 <= x < SECONDS_IN_A_DAY.
Proof.
  split; [reflexivity |].
  destruct (left_is_time_of_day
              (loaded [row0; midnight_frame; before_epoch_frame])
              [row0; midnight_frame; before_epoch_frame] eq_refl)
    as (ns' & l & H1 & H2 & _ & H4 & H5 & H6).
  exists ns', l. split; [exact H1 |]. split; [exact H2 |].
  split; [exact (H4 0%nat) |].
  split; [exact (H6 1%nat midnight_frame eq_refl eq_refl) |].
  split; [exact (H4 2%nat) | exact H5].
Defined.

(** C2. The right coordinate of every rectangle is the left coordinate plus
    the frame's acquisition time, as Python adds an integer and a float;
    nothing wraps or clips it at the end of the day: a frame that starts at
    86399 and runs 120 seconds has left 86399 and right 86519, beyond
    86400; and right >= left whenever the acquisition time is >= 0. *)
Theorem right_is_left_plus_acq (ns : Namespace) (d : DataFrame) :
  df ns = Some d ->
  exists (ns' : Namespace) (l : list Z) (r : list float),
    prepare_cell ns = Ok ns' /\ l_values ns' = Some l /\ r_values ns' = Some r /\
    forall (i : nat) (fr : FrameRecord),
      d !! i = Some fr ->
      exists (x : Z) (y : float),
        l !! i = Some x /\ r !! i = Some y /\
        py_add x (acq_time_s fr) = Ok y /\
        y = add (of_Z x) (acq_time_s fr) /\
        (leb zero (acq_time_s fr) = true -> leb (of_Z x) y = true) /\
        (start_time_s fr = 86399 -> acq_time_s fr = of_Z 120 ->
         x = 86399 /\ y = of_Z 86519 /\ ltb (of_Z SECONDS_IN_A_DAY) y = true).
Proof.
  intros Hdf. exists (prepared ns d), (left_of <$> d), (right_of <$> d).
  split; [apply prepare_cell_ok; exact Hdf |].
  split; [reflexivity |]. split; [reflexivity |].
  intros i fr Hfr. exists (left_of fr), (right_of fr).
  rewrite !list_lookup_fmap, Hfr.
  split; [reflexivity |]. split; [reflexivity |].
  split; [apply py_add_left_of |]. split; [reflexivity |].
  split; [apply right_of_ge |].
  intros Hs Ha. unfold right_of, left_of. rewrite Hs, Ha.
  repeat split; vm_compute; reflexivity.
Qed.

Lemma right_is_left_plus_acq_witness :
  df (loaded [late_frame]) = Some [late_frame] /\
  exists (ns' : Namespace) (l : list Z) (r : list float),
    prepare_cell (loaded [late_frame]) = Ok ns' /\
    l_values ns' = Some l /\ r_values ns' = Some r /\
    exists (x : Z) (y : float),
      l !! 0%nat = Some x /\ r !! 0%nat = Some y /\
      x = 86399 /\ y = of_Z 86519 /\ leb (of_Z x) y = true.
Proof.
  split; [reflexivity |].
  destruct (right_is_left_plus_acq (loaded [late_frame]) [late_frame] eq_refl)
    as (ns' & l & r & H1 & H2 & H3 & H4).
  exists ns', l, r. repeat split; try assumption.
  destruct (H4 0%nat late_frame eq_refl)
    as (x & y & Hx & Hy & _ & _ & Hge & Hend).
  destruct (Hend eq_refl eq_refl) as (Ex & Ey & _).
  exists x, y. repeat split; try assumption. apply Hge. reflexivity.
Defined.

(** C3 (counterexample). A record with [acq_time_s = -5] violates the
    spec's field constraints, yet the cell raises nothing and produces its
    rectangle, with right = left - 5. *)
Lemma negative_acq_time_is_accepted :
  frame_valid negative_frame = false /\
  ~ (exists e : py_exn, prepare_cell (loaded [negative_frame]) = Raise e) /\
  exists ns' : Namespace,
    prepare_cell (loaded [negative_frame]) = Ok ns' /\
    rectangles_drawn ns' = Some 1%nat /\
    l_values ns' = Some [50575] /\ r_values ns' = Some [of_Z 50570].
Proof.
  split; [reflexivity |]. split.
  - intros [e He].
    rewrite (prepare_cell_ok (loaded [negative_frame]) [negative_frame] eq_refl)
      in He.
    discriminate He.
  - exists (prepared (loaded [negative_frame]) [negative_frame]).
    split; [apply prepare_cell_ok; reflexivity |].
    repeat split; vm_compute; reflexivity.
Qed.

(** C3 (amended). On records whose fields are numbers of the data model's
    types (integer start time and pixel count, float acquisition time and
    rate) the four assignments validate nothing: whether or not a record
    meets the field constraints of the spec (negative values and NaN
    included), no exception is raised, no record is dropped and no value is
    clamped; every record gets its rectangle, with left = start_time_s mod
    86400, right = left + acq_time_s and top = pixels_per_second as given.
    A field that is not a number of its column's type is not covered. *)
Theorem no_record_is_rejected (ns : Namespace) (d : DataFrame) :
  df ns = Some d ->
  exists ns' : Namespace,
    prepare_cell ns = Ok ns' /\
    rectangles_drawn ns' = Some (length d) /\
    forall (i : nat) (fr : FrameRecord),
      d !! i = Some fr ->
      rectangle ns' i =
        Some {| rect_left := start_time_s fr mod SECONDS_IN_A_DAY;
                rect_right :=
                  add (of_Z (start_time_s fr mod SECONDS_IN_A_DAY))
                      (acq_time_s fr);
                rect_top := pixels_per_second fr;
                rect_bottom := zero |}.
Proof.
  intros Hdf. exists (prepared ns d).
  split; [apply prepare_cell_ok; exact Hdf |].
  split; [apply rectangles_drawn_prepared |].
  intros i fr Hfr. rewrite rectangle_prepared.
  rewrite Hfr. reflexivity.
Qed.

Lemma no_record_is_rejected_witness :
  df (loaded [negative_frame; no_rate_frame; before_epoch_frame])
    = Some [negative_frame; no_rate_frame; before_epoch_frame] /\
  forallb frame_valid [negative_frame; no_rate_frame; before_epoch_frame]
    = false /\
  exists ns' : Namespace,
    prepare_cell (loaded [negative_frame; no_rate_frame; before_epoch_frame])
      = Ok ns' /\
    rectangles_drawn ns' = Some 3%nat /\
    rectangle ns' 0 =
      Some {| rect_left := 50575; rect_right := of_Z 50570;
              rect_top := decimal 95 100; rect_bottom := zero |} /\
    rectangle ns' 1 =
      Some {| rect_left := 50695; rect_right := of_Z 50755;
              rect_top := S754_nan; rect_bottom := zero |} /\
    rectangle ns' 2 =
      Some {| rect_left := 86399; rect_right := of_Z 86459;
              rect_top := zero; rect_bottom := zero |}.
Proof.
  split; [reflexivity |]. split; [reflexivity |].
  destruct (no_record_is_rejected
              (loaded [negative_frame; no_rate_frame; before_epoch_frame])
              [negative_frame; no_rate_frame; before_epoch_frame] eq_refl)
    as (ns' & H1 & H2 & H3).
  exists ns'. split; [exact H1 |]. split; [exact H2 |].
  split; [exact (H3 0%nat negative_frame eq_refl) |].
  split; [exact (H3 1%nat no_rate_frame eq_refl) |].
  exact (H3 2%nat before_epoch_frame eq_refl).
Defined.

(** C4. The output has one rectangle per input frame, in the input's order:
    the rectangle at index [i] is the spec's per-record rectangle of the frame
    at index [i] and of no other frame, so two inputs that agree at [i] give
    the same rectangle there; the empty input gives four empty lists. *)
Theorem output_follows_input (ns : Namespace) (d : DataFrame) :
  df ns = Some d ->
  exists ns' : Namespace,
    prepare_cell ns = Ok ns' /\
    rectangles_drawn ns' = Some (length d) /\
    (forall i : nat,
       rectangle ns' i = spec_rectangle SECONDS_IN_A_DAY <$> d !! i) /\
    (forall (ns2 : Namespace) (d2 : DataFrame) (i : nat),
       df ns2 = Some d2 -> d2 !! i = d !! i ->
       exists ns2' : Namespace,
         prepare_cell ns2 = Ok ns2' /\ rectangle ns2' i = rectangle ns' i) /\
    (d = [] ->
     l_values ns' = Some [] /\ r_values ns' = Some [] /\
     t_values ns' = Some [] /\ b_values ns' = Some []).
Proof.
  intros Hdf. exists (prepared ns d).
  split; [apply prepare_cell_ok; exact Hdf |].
  split; [apply rectangles_drawn_prepared |].
  split; [apply rectangle_prepared |].
  split.
  - intros ns2 d2 i Hdf2 Hi. exists (prepared ns2 d2).
    split; [apply prepare_cell_ok; exact Hdf2 |].
    rewrite !rectangle_prepared, Hi. reflexivity.
  - intros ->. repeat split; reflexivity.
Qed.

Lemma output_follows_input_witness :
  df (loaded [row0; row1]) = Some [row0; row1] /\
  exists ns' : Namespace,
    prepare_cell (loaded [row0; row1]) = Ok ns' /\
    rectangles_drawn ns' = Some 2%nat /\
    rectangle ns' 1 = Some (spec_rectangle SECONDS_IN_A_DAY row1) /\
    rectangle ns' 2 = None.
Proof.
  split; [reflexivity |].
  destruct (output_follows_input (loaded [row0; row1]) [row0; row1] eq_refl)
    as (ns' & H1 & H2 & H3 & _).
  exists ns'. split; [exact H1 |]. split; [exact H2 |].
  split; [exact (H3 1%nat) | exact (H3 2%nat)].
Defined.

(** C5. The top coordinate of every rectangle is the frame's
    [pixels_per_second] as supplied: the list of tops is that column, so it
    is the same for any input with the same column, whatever its pixel counts
    and acquisition times are; no rate is recomputed and none is checked. *)
Theorem top_is_rate_as_supplied (ns : Namespace) (d : DataFrame) :
  df ns = Some d ->
  exists (ns' : Namespace) (t : list float),
    prepare_cell ns = Ok ns' /\ t_values ns' = Some t /\
    (forall i : nat, t !! i = pixels_per_second <$> d !! i) /\
    (forall (ns2 : Namespace) (d2 : DataFrame),
       df ns2 = Some d2 ->
       tolist pixels_per_second d2 = tolist pixels_per_second d ->
       exists ns2' : Namespace,
         prepare_cell ns2 = Ok ns2' /\ t_values ns2' = Some t).
Proof.
  intros Hdf. exists (prepared ns d), (pixels_per_second <$> d).
  split; [apply prepare_cell_ok; exact Hdf |].
  split; [reflexivity |].
  split; [intros i; apply list_lookup_fmap |].
  intros ns2 d2 Hdf2 Hcol. exists (prepared ns2 d2).
  split; [apply prepare_cell_ok; exact Hdf2 |].
  unfold prepared, tolist in *. cbn [t_values]. rewrite Hcol. reflexivity.
Qed.

Lemma top_is_rate_as_supplied_witness :
  df (loaded [row0]) = Some [row0] /\
  exists (ns' : Namespace) (t : list float),
    prepare_cell (loaded [row0]) = Ok ns' /\ t_values ns' = Some t /\
    t !! 0%nat = Some (decimal 95 100) /\
    exists ns2' : Namespace,
      prepare_cell (loaded [negative_frame]) = Ok ns2' /\
      t_values ns2' = Some t.
Proof.
  split; [reflexivity |].
  destruct (top_is_rate_as_supplied (loaded [row0]) [row0] eq_refl)
    as (ns' & t & H1 & H2 & H3 & H4).
  exists ns', t. split; [exact H1 |]. split; [exact H2 |].
  split; [exact (H3 0%nat) |].
  exact (H4 (loaded [negative_frame]) [negative_frame] eq_refl eq_refl).
Defined.

(** C6 (counterexample). The second row of the notebook's table records 41
    pixels at 0.683333 pixels per second over 60 seconds: the area of its
    rectangle, 0.683333 * 60, is not 41. *)
Lemma area_is_not_pixel_count :
  exists (ns' : Namespace) (rc : RectangleCoordinates),
    prepare_cell (loaded [row0; row1]) = Ok ns' /\
    rectangle ns' 1 = Some rc /\
    n_pixels row1 = 41 /\
    eqb (area rc) (of_Z 41) = false /\
    ltb (area rc) (of_Z 41) = true.
Proof.
  exists (prepared (loaded [row0; row1]) [row0; row1]),
         (spec_rectangle SECONDS_IN_A_DAY row1).
  split; [apply prepare_cell_ok; reflexivity |].
  repeat split; vm_compute; reflexivity.
Qed.

(** C6 (amended). For every frame whose acquisition time is a whole number
    of seconds (below 2^52), the width right - left of its rectangle is the
    acquisition time exactly, so the area top * (right - left) is the float
    product pixels_per_second * acq_time_s; it equals the frame's pixel count
    when the supplied rate times the acquisition time does, which the cell
    never checks. *)
Theorem area_is_rate_times_duration (ns : Namespace) (d : DataFrame) :
  df ns = Some d ->
  exists ns' : Namespace,
    prepare_cell ns = Ok ns' /\
    forall (i : nat) (fr : FrameRecord) (k : Z),
      d !! i = Some fr -> 0 <= k < 2 ^ 52 -> acq_time_s fr = of_Z k ->
      exists rc : RectangleCoordinates,
        rectangle ns' i = Some rc /\
        sub (rect_right rc) (of_Z (rect_left rc)) = acq_time_s fr /\
        area rc = mul (pixels_per_second fr) (acq_time_s fr) /\
        (mul (pixels_per_second fr) (acq_time_s fr) = of_Z (n_pixels fr) ->
         area rc = of_Z (n_pixels fr)).
Proof.
  intros Hdf. exists (prepared ns d).
  split; [apply prepare_cell_ok; exact Hdf |].
  intros i fr k Hfr Hk Ha.
  exists (spec_rectangle SECONDS_IN_A_DAY fr).
  split; [rewrite rectangle_prepared, Hfr; reflexivity |].
  assert (Hw : sub (rect_right (spec_rectangle SECONDS_IN_A_DAY fr))
                   (of_Z (rect_left (spec_rectangle SECONDS_IN_A_DAY fr)))
               = acq_time_s fr).
  { cbn [spec_rectangle rect_right rect_left]. rewrite Ha.
    pose proof (mod_day_range (start_time_s fr)) as Hl.
    set (x := start_time_s fr mod SECONDS_IN_A_DAY) in *.
    change SECONDS_IN_A_DAY with 86400 in Hl.
    change (2 ^ 52) with 4503599627370496 in Hk.
    apply width_of_Z; lia. }
  split; [exact Hw |].
  assert (Harea : area (spec_rectangle SECONDS_IN_A_DAY fr)
                  = mul (pixels_per_second fr) (acq_time_s fr)).
  { unfold area. rewrite Hw. reflexivity. }
  split; [exact Harea |].
  intros Hn. rewrite Harea. exact Hn.
Qed.

Lemma area_is_rate_times_duration_witness :
  df (loaded [row0; row1]) = Some [row0; row1] /\
  exists (ns' : Namespace) (rc : RectangleCoordinates),
    prepare_cell (loaded [row0; row1]) = Ok ns' /\
    rectangle ns' 0 = Some rc /\
    sub (rect_right rc) (of_Z (rect_left rc)) = of_Z 60 /\
    area rc = of_Z 57.
Proof.
  split; [reflexivity |].
  destruct (area_is_rate_times_duration (loaded [row0; row1]) [row0; row1]
              eq_refl) as (ns' & H1 & H2).
  destruct (H2 0%nat row0 60 eq_refl ltac:(lia) eq_refl)
    as (rc & Hrc & Hw & _ & Hn).
  exists ns', rc. split; [exact H1 |]. split; [exact Hrc |].
  split; [exact Hw |]. apply Hn. vm_compute. reflexivity.
Defined.

(** C7 (counterexample). The cell has a side effect beyond its four
    results: in a kernel where [s] and [a] are in use, it overwrites both
    (with the last left coordinate and the last acquisition time). *)
Lemma prepare_cell_overwrites_s_and_a :
  s (used_kernel [row0]) = Some 0 /\ a (used_kernel [row0]) = Some zero /\
  exists ns' : Namespace,
    prepare_cell (used_kernel [row0]) = Ok ns' /\
    s ns' = Some 50575 /\ a ns' = Some (of_Z 60) /\
    s ns' <> s (used_kernel [row0]) /\ a ns' <> a (used_kernel [row0]).
Proof.
  split; [reflexivity |]. split; [reflexivity |].
  exists (prepared (used_kernel [row0]) [row0]).
  split; [apply prepare_cell_ok; reflexivity |].
  split; [reflexivity |]. split; [reflexivity |].
  split; discriminate.
Qed.

(** C7 (amended). The results of the four assignments are a function of
    [df] alone: the cell raises nothing, leaves [df] as it was, gives the
    same four lists from any namespace that holds the same [df] (nothing that
    an earlier run left behind is read), gives at each index a rectangle that
    depends on the frame at that index only, and running it again on its own
    result changes nothing.  It does have a side effect beyond binding the
    four lists: after a non-empty table the names [s] and [a] hold the left
    coordinate and the acquisition time of the last row, whatever they held
    before. *)
Theorem prepare_cell_results_depend_on_df_only (ns : Namespace) (d : DataFrame) :
  df ns = Some d ->
  exists ns' : Namespace,
    prepare_cell ns = Ok ns' /\
    df ns' = Some d /\
    (forall ns2 : Namespace,
       df ns2 = Some d ->
       exists ns2' : Namespace,
         prepare_cell ns2 = Ok ns2' /\
         l_values ns2' = l_values ns' /\ r_values ns2' = r_values ns' /\
         t_values ns2' = t_values ns' /\ b_values ns2' = b_values ns') /\
    (forall (ns2 : Namespace) (d2 : DataFrame) (i : nat),
       df ns2 = Some d2 -> d2 !! i = d !! i ->
       exists ns2' : Namespace,
         prepare_cell ns2 = Ok ns2' /\ rectangle ns2' i = rectangle ns' i) /\
    prepare_cell ns' = Ok ns' /\
    (forall fr : FrameRecord,
       list.last d = Some fr ->
       s ns' = Some (start_time_s fr mod SECONDS_IN_A_DAY) /\
       a ns' = Some (acq_time_s fr)).
Proof.
  intros Hdf. exists (prepared ns d).
  split; [apply prepare_cell_ok; exact Hdf |].
  split; [reflexivity |].
  split; [| split; [| split]].
  - intros ns2 Hdf2. exists (prepared ns2 d).
    split; [apply prepare_cell_ok; exact Hdf2 |].
    repeat split; reflexivity.
  - intros ns2 d2 i Hdf2 Hi. exists (prepared ns2 d2).
    split; [apply prepare_cell_ok; exact Hdf2 |].
    rewrite !rectangle_prepared, Hi. reflexivity.
  - rewrite (prepare_cell_ok (prepared ns d) d eq_refl).
    rewrite prepared_again. reflexivity.
  - intros fr Hlast. unfold prepared, loop_var. cbn [s a].
    rewrite !fmap_last, Hlast. split; reflexivity.
Qed.

Lemma prepare_cell_results_depend_on_df_only_witness :
  df (used_kernel [row0; row1]) = Some [row0; row1] /\
  exists ns' : Namespace,
    prepare_cell (used_kernel [row0; row1]) = Ok ns' /\
    df ns' = Some [row0; row1] /\
    prepare_cell ns' = Ok ns' /\
    (exists ns2' : Namespace,
       prepare_cell (loaded [row0; row1]) = Ok ns2' /\
       l_values ns2' = l_values ns' /\ r_values ns2' = r_values ns' /\
       t_values ns2' = t_values ns' /\ b_values ns2' = b_values ns') /\
    s ns' = Some 50635 /\ a ns' = Some (of_Z 60).
Proof.
  split; [reflexivity |].
  destruct (prepare_cell_results_depend_on_df_only
              (used_kernel [row0; row1]) [row0; row1] eq_refl)
    as (ns' & H1 & H2 & H3 & _ & H5 & H6).
  exists ns'. split; [exact H1 |]. split; [exact H2 |]. split; [exact H5 |].
  split; [exact (H3 (loaded [row0; row1]) eq_refl) |].
  exact (H6 row1 eq_refl).
Defined.

(** C8. The bottom coordinate of every rectangle is the constant 0.0: the
    list of bottoms has one entry per frame and each entry is 0.0. *)
Theorem bottom_is_zero (ns : Namespace) (d : DataFrame) :
  df ns = Some d ->
  exists (ns' : Namespace) (b : list float),
    prepare_cell ns = Ok ns' /\ b_values ns' = Some b /\
    length b = length d /\
    (forall (i : nat) (y : float), b !! i = Some y -> y = zero) /\
    (forall (i : nat) (fr : FrameRecord),
       d !! i = Some fr -> b !! i = Some zero).
Proof.
  intros Hdf. exists (prepared ns d), (replicate (length d) zero).
  split; [apply prepare_cell_ok; exact Hdf |].
  split; [reflexivity |].
  split; [apply length_replicate |].
  split.
  - intros i y Hy. apply lookup_replicate_1 in Hy as [-> _]. reflexivity.
  - intros i fr Hfr. apply lookup_replicate_2.
    eapply lookup_lt_Some. exact Hfr.
Qed.

Lemma bottom_is_zero_witness :
  df (loaded [row0; row1]) = Some [row0; row1] /\
  exists (ns' : Namespace) (b : list float),
    prepare_cell (loaded [row0; row1]) = Ok ns' /\ b_values ns' = Some b /\
    length b = 2%nat /\ b !! 1%nat = Some zero.
Proof.
  split; [reflexivity |].
  destruct (bottom_is_zero (loaded [row0; row1]) [row0; row1] eq_refl)
    as (ns' & b & H1 & H2 & H3 & _ & H5).
  exists ns', b. split; [exact H1 |]. split; [exact H2 |].
  split; [exact H3 | exact (H5 1%nat row1 eq_refl)].
Defined.

(** C9. The upper limit of the y axis is worked out in the plotting cell,
    not in the preparing cell: for a non-empty input of valid frames the
    figure helper is called with [max(t_values)], which is one of the top
    values, is at least every top value, and is the maximum of the input's
    [pixels_per_second] column. *)
Theorem y_limit_is_max_top {Figure : Type}
  (get_day_plot_figure : float -> Figure)
  (quad : Figure -> list float -> list float -> list Z -> list float -> Figure)
  (ns : Namespace) (d : DataFrame) :
  df ns = Some d ->
  d <> [] ->
  Forall (fun fr => frame_valid fr = true) d ->
  exists (ns' : Namespace) (l : list Z) (r t b : list float) (y_max : float),
    prepare_cell ns = Ok ns' /\
    l_values ns' = Some l /\ r_values ns' = Some r /\
    t_values ns' = Some t /\ b_values ns' = Some b /\
    plot_cell get_day_plot_figure quad ns'
      = Ok (quad (get_day_plot_figure y_max) t b l r) /\
    py_max t = Ok y_max /\
    py_max (tolist pixels_per_second d) = Ok y_max /\
    y_max ∈ t /\
    (forall y : float, y ∈ t -> leb y y_max = true).
Proof.
  intros Hdf Hne Hvalid.
  destruct d as [| fr d']; [congruence |].
  set (d := fr :: d') in *.
  set (y_max := foldl py_max_step (pixels_per_second fr)
                  (pixels_per_second <$> d')).
  exists (prepared ns d), (left_of <$> d), (right_of <$> d),
         (pixels_per_second <$> d), (replicate (length d) zero), y_max.
  split; [apply prepare_cell_ok; exact Hdf |].
  do 4 (split; [reflexivity |]).
  split; [reflexivity |]. split; [reflexivity |]. split; [reflexivity |].
  inversion Hvalid as [| fr0 d0 Hfr Hd' E]; subst.
  destruct (foldl_py_max_step (pixels_per_second <$> d') (pixels_per_second fr))
    as [Hmem Hall].
  - apply frame_valid_not_nan. exact Hfr.
  - apply Forall_fmap. rewrite Forall_forall in Hd' |- *.
    intros fr1 H1. apply frame_valid_not_nan. apply Hd'. exact H1.
  - split; [exact Hmem |].
    intros y Hy. rewrite Forall_forall in Hall.
    apply Hall, list_elem_of_In. exact Hy.
Qed.

Lemma y_limit_is_max_top_witness :
  df (loaded [row1; row0]) = Some [row1; row0] /\
  [row1; row0] <> [] /\
  Forall (fun fr => frame_valid fr = true) [row1; row0] /\
  exists (ns' : Namespace) (fig : Drawn),
    prepare_cell (loaded [row1; row0]) = Ok ns' /\
    plot_cell sketch_figure sketch_quad ns' = Ok fig /\
    leb (decimal 683333 1000000) (y_limit fig) = true /\
    leb (decimal 95 100) (y_limit fig) = true.
Proof.
  assert (Hv : Forall (fun fr => frame_valid fr = true) [row1; row0]).
  { repeat constructor. }
  split; [reflexivity |]. split; [discriminate |]. split; [exact Hv |].
  destruct (y_limit_is_max_top sketch_figure sketch_quad
              (loaded [row1; row0]) [row1; row0] eq_refl
              ltac:(discriminate) Hv)
    as (ns' & l & r & t & b & y_max & H1 & _ & _ & Ht & _ & Hp & _ & _ & _ & Hle).
  exists ns', (sketch_quad (sketch_figure y_max) t b l r).
  split; [exact H1 |]. split; [exact Hp |].
  rewrite (prepare_cell_ok (loaded [row1; row0]) [row1; row0] eq_refl) in H1.
  injection H1 as <-. cbn [prepared t_values] in Ht. injection Ht as <-.
  split; apply Hle.
  - apply list_elem_of_here.
  - apply list_elem_of_further, list_elem_of_here.
Defined.

(** C10. For the empty input the preparing cell gives four empty lists, and
    the plotting cell then fails before any figure is made: [max] of the
    empty list of top values raises [ValueError]. *)
Theorem empty_input_no_figure {Figure : Type}
  (get_day_plot_figure : float -> Figure)
  (quad : Figure -> list float -> list float -> list Z -> list float -> Figure)
  (ns : Namespace) :
  df ns = Some [] ->
  exists ns' : Namespace,
    prepare_cell ns = Ok ns' /\
    l_values ns' = Some [] /\ r_values ns' = Some [] /\
    t_values ns' = Some [] /\ b_values ns' = Some [] /\
    py_max [] = Raise ValueError /\
    plot_cell get_day_plot_figure quad ns' = Raise ValueError.
Proof.
  intros Hdf. exists (prepared ns []).
  split; [apply prepare_cell_ok; exact Hdf |].
  repeat split; reflexivity.
Qed.

Lemma empty_input_no_figure_witness :
  df (loaded []) = Some [] /\
  exists ns' : Namespace,
    prepare_cell (loaded []) = Ok ns' /\
    plot_cell sketch_figure sketch_quad ns' = Raise ValueError.
Proof.
  split; [reflexivity |].
  destruct (empty_input_no_figure sketch_figure sketch_quad (loaded []) eq_refl)
    as (ns' & H1 & _ & _ & _ & _ & _ & H7).
  exists ns'. split; [exact H1 | exact H7].
Defined.

(** ** Further facts about binary64 arithmetic *)

(** The conversion from integers below [2^53] keeps their order. *)
Lemma of_Z_le (x y : Z) :
  0 <= x <= y -> y < 2 ^ 53 -> leb (of_Z x) (of_Z y) = true.
Proof.
  intros Hxy Hy. unfold leb.
  destruct y as [| q | q]; try lia.
  - assert (x = 0) by lia. subst x. reflexivity.
  - destruct (of_Z_exact q) as (mq & Eq & Bq & Dq & Vq); [lia |].
    destruct x as [| p | p]; try lia.
    + unfold of_Z in *. rewrite Eq. reflexivity.
    + destruct (of_Z_exact p) as (mp & Ep & Bp & Dp & Vp); [lia |].
      pose proof (digits2_le p q ltac:(lia)) as Hd.
      unfold of_Z in *. rewrite Ep, Eq. apply finite_le_finite.
      destruct (Z.eq_dec (Z.pos (digits2_pos p)) (Z.pos (digits2_pos q)))
        as [E | E]; [right | left; lia].
      split; [lia |]. rewrite Vp, Vq, E.
      apply Z.mul_le_mono_nonneg_r; [apply Z.pow_nonneg |]; lia.
Qed.

(** Non-negative integers add exactly while the sum stays below [2^53]. *)
Lemma add_of_Z (x k : Z) :
  0 <= x -> 0 <= k -> x + k < 2 ^ 53 -> add (of_Z x) (of_Z k) = of_Z (x + k).
Proof.
  intros Hx Hk Hsum. unfold add.
  destruct x as [| p | p]; try lia; destruct k as [| q | q]; try lia.
  - reflexivity.
  - destruct (of_Z_exact q) as (m & E & _); [lia |].
    change (0 + Z.pos q) with (Z.pos q).
    unfold of_Z in *. rewrite E. reflexivity.
  - destruct (of_Z_exact p) as (m & E & _); [lia |].
    rewrite Z.add_0_r. unfold of_Z in *. rewrite E. reflexivity.
  - apply add_of_Z_pos. exact Hsum.
Qed.

(** Rounding never makes a NaN. *)
Lemma binary_round_not_nan (sx : bool) (M : positive) (ez : Z) :
  binary_round prec emax sx M ez <> S754_nan.
Proof.
  unfold binary_round.
  destruct (shl_align M ez _) as [mz e1].
  unfold binary_round_aux, shr_fexp. cbn [shr_record_of_loc].
  set (n1 := fexp prec emax (Zdigits2 (Z.pos mz) + e1) - e1).
  pose proof (shr_spec {| shr_m := Z.pos mz; shr_r := false; shr_s := false |}
                e1 n1) as [Hm1 _]; [cbn; lia |].
  destruct (shr _ e1 n1) as [mrs1 e2]. cbn [fst shr_m] in Hm1.
  assert (H1 : 0 <= shr_m mrs1).
  { rewrite Hm1. apply Z.div_pos; [lia | apply Z.pow_pos_nonneg; lia]. }
  pose proof (round_nearest_even_bounds (shr_m mrs1) (loc_of_shr_record mrs1))
    as Hr.
  set (m2 := round_nearest_even (shr_m mrs1) (loc_of_shr_record mrs1)) in *.
  set (n2 := fexp prec emax (Zdigits2 m2 + e2) - e2).
  pose proof (shr_spec {| shr_m := m2; shr_r := false; shr_s := false |}
                e2 n2) as [Hm3 _]; [cbn; lia |].
  destruct (shr _ e2 n2) as [mrs3 e3]. cbn [fst shr_m] in Hm3.
  assert (H3 : 0 <= shr_m mrs3).
  { rewrite Hm3. apply Z.div_pos; [lia | apply Z.pow_pos_nonneg; lia]. }
  destruct (shr_m mrs3) as [| m | m]; try lia; try discriminate.
  destruct (Z.leb e3 (emax - prec)); discriminate.
Qed.



(** ** Further facts about the Python operations *)

(** [max] from a NaN stays at the NaN: no item compares greater. *)
Lemma foldl_py_max_step_nan (xs : list float) :
  foldl py_max_step S754_nan xs = S754_nan.
Proof. induction xs as [| y xs IH]; cbn [foldl]; [reflexivity | exact IH]. Qed.

(** [max] from a number skips every NaN it meets. *)
Lemma foldl_py_max_step_skips_nan (xs : list float) :
  forall x : float,
  x <> S754_nan ->
  foldl py_max_step x xs <> S754_nan /\
  foldl py_max_step x xs ∈ x :: xs /\
  (forall y : float,
     y ∈ x :: xs -> y <> S754_nan ->
     leb y (foldl py_max_step x xs) = true).
Proof.
  induction xs as [| y xs IH]; intros x Hx; cbn [foldl].
  - split; [exact Hx |]. split; [apply list_elem_of_here |].
    intros y Hy _. apply elem_of_cons in Hy as [-> | Hy].
    + apply SFleb_refl. exact Hx.
    + inversion Hy.
  - set (x' := py_max_step x y).
    assert (Hx' : x' <> S754_nan /\ (x' = x \/ x' = y) /\ leb x x' = true /\
                  (y <> S754_nan -> leb y x' = true)).
    { unfold x', py_max_step, ltb, leb. destruct (SFltb x y) eqn:E.
      - assert (Hy : y <> S754_nan).
        { intros ->. destruct x as [[] | [] | | [] m e]; discriminate E. }
        repeat split; [exact Hy | right; reflexivity | | ].
        + apply SFltb_SFleb. exact E.
        + intros _. apply SFleb_refl. exact Hy.
      - repeat split; [exact Hx | left; reflexivity | | ].
        + apply SFleb_refl. exact Hx.
        + intros Hy. apply SFltb_false_SFleb; assumption. }
    destruct Hx' as (Hn & Hin & Hxx' & Hyx').
    destruct (IH x' Hn) as (Hm & Hmem & Hall).
    split; [exact Hm |]. split.
    + apply elem_of_cons in Hmem as [-> | Hmem].
      * destruct Hin as [-> | ->];
          [apply list_elem_of_here
          | apply list_elem_of_further, list_elem_of_here].
      * do 2 apply list_elem_of_further. exact Hmem.
    + intros z Hz Hzn. apply elem_of_cons in Hz as [-> | Hz].
      * eapply SFleb_trans; [exact Hxx' |].
        apply Hall; [apply list_elem_of_here | exact Hn].
      * apply elem_of_cons in Hz as [-> | Hz].
        -- eapply SFleb_trans; [apply Hyx'; exact Hzn |].
           apply Hall; [apply list_elem_of_here | exact Hn].
        -- apply Hall; [apply list_elem_of_further; exact Hz | exact Hzn].
Qed.

(** Frames with the same time of day have the same left and right. *)
Lemma same_time_of_day_left (f g : FrameRecord) :
  same_time_of_day f g -> left_of g = left_of f /\ right_of g = right_of f.
Proof.
  intros [[k Hk] [Ha _]].
  assert (Hl : left_of g = left_of f).
  { unfold left_of. rewrite Hk. apply Z.mod_add. discriminate. }
  split; [exact Hl |]. unfold right_of. rewrite Hl, Ha. reflexivity.
Qed.

Lemma same_time_of_day_columns (d d2 : DataFrame) :
  Forall2 same_time_of_day d d2 ->
  left_of <$> d2 = left_of <$> d /\
  right_of <$> d2 = right_of <$> d /\
  pixels_per_second <$> d2 = pixels_per_second <$> d /\
  length d2 = length d.
Proof.
  induction 1 as [| f g d d2 Hfg _ (IH1 & IH2 & IH3 & IH4)].
  - repeat split; reflexivity.
  - destruct (same_time_of_day_left f g Hfg) as [Hl Hr].
    destruct Hfg as (_ & _ & Hp).
    cbn [fmap list_fmap length].
    rewrite Hl, Hr, Hp. cbn [fmap] in *. rewrite IH1, IH2, IH3, IH4.
    repeat split; reflexivity.
Qed.

(** The left coordinate is the start time less the whole days before it. *)
Lemma left_of_day (fr : FrameRecord) :
  left_of fr = start_time_s fr - day_of fr * SECONDS_IN_A_DAY.
Proof.
  unfold left_of, day_of. rewrite Z.mod_eq by discriminate. lia.
Qed.

(** ** Further properties of the two cells *)

(** X1. On a table of numbers of the columns' types, valid or not (negative
    values, NaN and infinities included), the four assignments followed by
    the plotting cell reach [quad] whenever the table is not empty: the y
    limit is [max] of the rate column and the quads get four lists with one
    entry per row.  For the empty table the run raises [ValueError]. *)
Theorem run_all_draws_unless_empty {Figure : Type}
  (get_day_plot_figure : float -> Figure)
  (quad : Figure -> list float -> list float -> list Z -> list float -> Figure)
  (ns : Namespace) (d : DataFrame) :
  df ns = Some d ->
  (d = [] -> run_all get_day_plot_figure quad ns = Raise ValueError) /\
  (d <> [] ->
   exists (y_max : float) (l : list Z) (r t b : list float),
     run_all get_day_plot_figure quad ns
       = Ok (quad (get_day_plot_figure y_max) t b l r) /\
     py_max (tolist pixels_per_second d) = Ok y_max /\
     length l = length d /\ length r = length d /\
     length t = length d /\ length b = length d).
Proof.
  intros Hdf. unfold run_all. rewrite (prepare_cell_ok ns d Hdf). cbn [bind].
  split.
  - intros ->. reflexivity.
  - intros Hne. destruct d as [| fr d']; [congruence |].
    exists (foldl py_max_step (pixels_per_second fr) (pixels_per_second <$> d')),
           (left_of <$> fr :: d'), (right_of <$> fr :: d'),
           (pixels_per_second <$> fr :: d'),
           (replicate (length (fr :: d')) zero).
    split; [reflexivity |]. split; [reflexivity |].
    rewrite !length_fmap, length_replicate. repeat split; reflexivity.
Qed.

Lemma run_all_draws_unless_empty_witness :
  df (loaded [no_rate_frame; negative_frame])
    = Some [no_rate_frame; negative_frame] /\
  exists fig : Drawn,
    run_all sketch_figure sketch_quad (loaded [no_rate_frame; negative_frame])
      = Ok fig.
Proof.
  split; [reflexivity |].
  destruct (run_all_draws_unless_empty sketch_figure sketch_quad
              (loaded [no_rate_frame; negative_frame])
              [no_rate_frame; negative_frame] eq_refl) as [_ H].
  destruct (H ltac:(discriminate)) as (y & l & r & t & b & Hrun & _).
  exists (sketch_quad (sketch_figure y) t b l r). exact Hrun.
Defined.

(** X2. On a table of numbers of the columns' types the arithmetic of the
    preparing cell cannot fail, although its operations can: [%] raises
    [ZeroDivisionError] for a zero divisor, but the divisor is 86400, and
    integer + float raises [OverflowError] for an integer beyond the floats,
    but every left value is below 86400.  So with [df] bound the four
    assignments complete, and with [df] unbound the first one raises
    [NameError] for [df]. *)
Theorem prepare_cell_arithmetic_cannot_fail (ns : Namespace) :
  ((exists ns' : Namespace, prepare_cell ns = Ok ns') <-> is_Some (df ns)) /\
  (df ns = None -> prepare_cell ns = Raise (NameError "df")) /\
  prepare_cell ns <> Raise ZeroDivisionError /\
  prepare_cell ns <> Raise OverflowError /\
  (forall x : Z, py_mod x 0 = Raise ZeroDivisionError) /\
  (forall y : float, py_add (2 ^ 1024) y = Raise OverflowError).
Proof.
  split; [| split; [| split; [| split; [| split]]]].
  - destruct (df ns) as [d |] eqn:Hdf.
    + rewrite (prepare_cell_ok ns d Hdf). split; eauto.
    + unfold prepare_cell, assign_l_values. rewrite Hdf. cbn [name bind].
      split; [intros [ns' E]; discriminate E | intros [x E]; discriminate E].
  - intros Hdf. unfold prepare_cell, assign_l_values. rewrite Hdf. reflexivity.
  - destruct (df ns) as [d |] eqn:Hdf.
    + rewrite (prepare_cell_ok ns d Hdf). discriminate.
    + unfold prepare_cell, assign_l_values. rewrite Hdf. discriminate.
  - destruct (df ns) as [d |] eqn:Hdf.
    + rewrite (prepare_cell_ok ns d Hdf). discriminate.
    + unfold prepare_cell, assign_l_values. rewrite Hdf. discriminate.
  - intros x. reflexivity.
  - intros y. unfold py_add.
    replace (py_float (2 ^ 1024)) with (@Raise float OverflowError)
      by (vm_compute; reflexivity).
    reflexivity.
Qed.


(** X4. Only the time of day of a frame is drawn: two tables whose rows
    differ by whole days in their start times (and in any way in their pixel
    counts) give the same four lists. *)
Theorem same_time_of_day_same_lists (ns ns2 : Namespace) (d d2 : DataFrame) :
  df ns = Some d -> df ns2 = Some d2 ->
  Forall2 same_time_of_day d d2 ->
  exists ns' ns2' : Namespace,
    prepare_cell ns = Ok ns' /\ prepare_cell ns2 = Ok ns2' /\
    l_values ns2' = l_values ns' /\ r_values ns2' = r_values ns' /\
    t_values ns2' = t_values ns' /\ b_values ns2' = b_values ns'.
Proof.
  intros Hdf Hdf2 Hsame. exists (prepared ns d), (prepared ns2 d2).
  split; [apply prepare_cell_ok; exact Hdf |].
  split; [apply prepare_cell_ok; exact Hdf2 |].
  destruct (same_time_of_day_columns d d2 Hsame) as (H1 & H2 & H3 & H4).
  unfold prepared. cbn [l_values r_values t_values b_values].
  rewrite H1, H2, H3, H4. repeat split; reflexivity.
Qed.

Lemma same_time_of_day_same_lists_witness :
  df (loaded [row0; late_frame]) = Some [row0; late_frame] /\
  df (loaded [days_later 3 row0; days_later (-16000) late_frame])
    = Some [days_later 3 row0; days_later (-16000) late_frame] /\
  Forall2 same_time_of_day [row0; late_frame]
    [days_later 3 row0; days_later (-16000) late_frame] /\
  exists ns' ns2' : Namespace,
    prepare_cell (loaded [row0; late_frame]) = Ok ns' /\
    prepare_cell (loaded [days_later 3 row0; days_later (-16000) late_frame])
      = Ok ns2' /\
    l_values ns2' = l_values ns' /\ r_values ns2' = r_values ns'.
Proof.
  assert (H : Forall2 same_time_of_day [row0; late_frame]
                [days_later 3 row0; days_later (-16000) late_frame]).
  { repeat constructor.
    - exists 3. reflexivity.
    - exists (-16000). reflexivity. }
  split; [reflexivity |]. split; [reflexivity |]. split; [exact H |].
  destruct (same_time_of_day_same_lists
              (loaded [row0; late_frame])
              (loaded [days_later 3 row0; days_later (-16000) late_frame])
              [row0; late_frame]
              [days_later 3 row0; days_later (-16000) late_frame]
              eq_refl eq_refl H)
    as (ns' & ns2' & H1 & H2 & H3 & H4 & _).
  exists ns', ns2'. repeat split; assumption.
Defined.



(** X6. For an acquisition time that is a whole number of seconds (below
    2^52) the right coordinate carries no rounding error: it is the float of
    the integer left + seconds. *)
Theorem right_exact_for_whole_seconds (ns : Namespace) (d : DataFrame) :
  df ns = Some d ->
  exists (ns' : Namespace) (r : list float),
    prepare_cell ns = Ok ns' /\ r_values ns' = Some r /\
    forall (i : nat) (fr : FrameRecord) (k : Z),
      d !! i = Some fr -> 0 <= k < 2 ^ 52 -> acq_time_s fr = of_Z k ->
      r !! i = Some (of_Z (start_time_s fr mod SECONDS_IN_A_DAY + k)).
Proof.
  intros Hdf. exists (prepared ns d), (right_of <$> d).
  split; [apply prepare_cell_ok; exact Hdf |]. split; [reflexivity |].
  intros i fr k Hfr Hk Ha. rewrite list_lookup_fmap, Hfr. cbn.
  f_equal. unfold right_of. rewrite Ha.
  pose proof (left_of_range fr) as Hl. unfold left_of in *.
  change (2 ^ 52) with 4503599627370496 in Hk.
  apply add_of_Z; lia.
Qed.

Lemma right_exact_for_whole_seconds_witness :
  df (loaded [row0; late_frame]) = Some [row0; late_frame] /\
  exists (ns' : Namespace) (r : list float),
    prepare_cell (loaded [row0; late_frame]) = Ok ns' /\
    r_values ns' = Some r /\
    r !! 0%nat = Some (of_Z 50635) /\ r !! 1%nat = Some (of_Z 86519).
Proof.
  split; [reflexivity |].
  destruct (right_exact_for_whole_seconds (loaded [row0; late_frame])
              [row0; late_frame] eq_refl) as (ns' & r & H1 & H2 & H3).
  exists ns', r. split; [exact H1 |]. split; [exact H2 |].
  split.
  - exact (H3 0%nat row0 60 eq_refl ltac:(lia) eq_refl).
  - exact (H3 1%nat late_frame 120 eq_refl ltac:(lia) eq_refl).
Defined.

(** X7. Rectangles of one day do not overlap when the frames do not: if a
    frame of a whole number of seconds ends no later than another frame of
    the same day starts, its right coordinate is at most the other's left
    coordinate. *)
Theorem rectangles_of_a_day_do_not_overlap (ns : Namespace) (d : DataFrame) :
  df ns = Some d ->
  exists (ns' : Namespace) (l : list Z) (r : list float),
    prepare_cell ns = Ok ns' /\ l_values ns' = Some l /\ r_values ns' = Some r /\
    forall (i j : nat) (f g : FrameRecord) (k : Z),
      d !! i = Some f -> d !! j = Some g ->
      0 <= k < 2 ^ 52 -> acq_time_s f = of_Z k ->
      day_of f = day_of g ->
      start_time_s f + k <= start_time_s g ->
      exists (y : float) (x : Z),
        r !! i = Some y /\ l !! j = Some x /\ leb y (of_Z x) = true.
Proof.
  intros Hdf. exists (prepared ns d), (left_of <$> d), (right_of <$> d).
  split; [apply prepare_cell_ok; exact Hdf |].
  split; [reflexivity |]. split; [reflexivity |].
  intros i j f g k Hf Hg Hk Ha Hday Hend.
  exists (right_of f), (left_of g).
  rewrite !list_lookup_fmap, Hf, Hg.
  split; [reflexivity |]. split; [reflexivity |].
  pose proof (left_of_range f) as Hlf. pose proof (left_of_range g) as Hlg.
  pose proof (left_of_day f) as Ef. pose proof (left_of_day g) as Eg.
  rewrite Hday in Ef.
  change (2 ^ 52) with 4503599627370496 in Hk.
  unfold right_of. rewrite Ha, add_of_Z by lia.
  apply of_Z_le; lia.
Qed.

Lemma rectangles_of_a_day_do_not_overlap_witness :
  df (loaded [row0; row1]) = Some [row0; row1] /\
  exists (ns' : Namespace) (l : list Z) (r : list float) (y : float) (x : Z),
    prepare_cell (loaded [row0; row1]) = Ok ns' /\
    l_values ns' = Some l /\ r_values ns' = Some r /\
    r !! 0%nat = Some y /\ l !! 1%nat = Some x /\ leb y (of_Z x) = true.
Proof.
  split; [reflexivity |].
  destruct (rectangles_of_a_day_do_not_overlap (loaded [row0; row1])
              [row0; row1] eq_refl) as (ns' & l & r & H1 & H2 & H3 & H4).
  destruct (H4 0%nat 1%nat row0 row1 60 eq_refl eq_refl ltac:(lia) eq_refl
              eq_refl ltac:(vm_compute; congruence))
    as (y & x & Hy & Hx & Hle).
  exists ns', l, r, y, x. repeat split; assumption.
Defined.



(** X9. A missing rate poisons the y limit only from the first row: Run All
    calls the figure helper with a NaN exactly when the rate of the first row
    is a NaN; otherwise the limit is one of the rates and at least every rate
    that is not a NaN. *)
Theorem y_limit_with_missing_rates {Figure : Type}
  (get_day_plot_figure : float -> Figure)
  (quad : Figure -> list float -> list float -> list Z -> list float -> Figure)
  (ns : Namespace) (fr : FrameRecord) (d : DataFrame) :
  df ns = Some (fr :: d) ->
  exists (y_max : float) (l : list Z) (r t b : list float),
    run_all get_day_plot_figure quad ns
      = Ok (quad (get_day_plot_figure y_max) t b l r) /\
    t = tolist pixels_per_second (fr :: d) /\
    (y_max = S754_nan <-> pixels_per_second fr = S754_nan) /\
    (pixels_per_second fr <> S754_nan ->
     y_max ∈ t /\
     forall y : float, y ∈ t -> y <> S754_nan -> leb y y_max = true).
Proof.
  intros Hdf.
  exists (foldl py_max_step (pixels_per_second fr) (pixels_per_second <$> d)),
         (left_of <$> fr :: d), (right_of <$> fr :: d),
         (pixels_per_second <$> fr :: d), (replicate (length (fr :: d)) zero).
  split.
  { unfold run_all. rewrite (prepare_cell_ok ns (fr :: d) Hdf). reflexivity. }
  split; [reflexivity |].
  destruct (pixels_per_second fr) as [sf | sf | | sf mf ef] eqn:E;
    try (pose proof (foldl_py_max_step_skips_nan (pixels_per_second <$> d)
                       (pixels_per_second fr)) as H;
         rewrite E in H; destruct H as (H1 & H2 & H3); [discriminate |];
         split; [split; [intros Hn; contradiction | discriminate] |];
         intros _; cbn [fmap list_fmap]; rewrite E; split; assumption).
  rewrite foldl_py_max_step_nan.
  split; [split; reflexivity | intros H; congruence].
Qed.

Lemma y_limit_with_missing_rates_witness :
  df (loaded [row1; no_rate_frame; row0]) = Some [row1; no_rate_frame; row0] /\
  exists fig : Drawn,
    run_all sketch_figure sketch_quad (loaded [row1; no_rate_frame; row0])
      = Ok fig /\
    y_limit fig <> S754_nan /\ leb (decimal 95 100) (y_limit fig) = true.
Proof.
  split; [reflexivity |].
  destruct (y_limit_with_missing_rates sketch_figure sketch_quad
              (loaded [row1; no_rate_frame; row0]) row1 [no_rate_frame; row0]
              eq_refl) as (y & l & r & t & b & Hrun & Ht & Hnan & Hmax).
  exists (sketch_quad (sketch_figure y) t b l r).
  split; [exact Hrun |].
  assert (Hp : pixels_per_second row1 <> S754_nan) by discriminate.
  split.
  - cbn [sketch_quad sketch_figure y_limit]. intros Hy. apply Hp, Hnan, Hy.
  - destruct (Hmax Hp) as [_ Hle]. cbn [sketch_quad sketch_figure y_limit].
    apply Hle; [| discriminate]. rewrite Ht.
    do 2 apply list_elem_of_further. apply list_elem_of_here.
Defined.

(** X10. The cell leaves its loop variables behind (Python 2 does not scope
    them to the comprehension): after a non-empty table [s] holds the left
    coordinate of the last row, not its start time, and [a] the last
    acquisition time, whatever they held before; after an empty table both
    are as they were. *)
Theorem loop_variables_after_prepare (ns : Namespace) (d : DataFrame) :
  df ns = Some d ->
  exists ns' : Namespace,
    prepare_cell ns = Ok ns' /\
    (d = [] -> s ns' = s ns /\ a ns' = a ns) /\
    (forall fr : FrameRecord,
       list.last d = Some fr ->
       s ns' = Some (start_time_s fr mod SECONDS_IN_A_DAY) /\
       a ns' = Some (acq_time_s fr)).
Proof.
  intros Hdf. exists (prepared ns d).
  split; [apply prepare_cell_ok; exact Hdf |]. split.
  - intros ->. split; reflexivity.
  - intros fr Hlast. unfold prepared, loop_var. cbn [s a].
    rewrite !fmap_last, Hlast. split; reflexivity.
Qed.

Lemma loop_variables_after_prepare_witness :
  df (loaded [row0; late_frame]) = Some [row0; late_frame] /\
  exists ns' : Namespace,
    prepare_cell (loaded [row0; late_frame]) = Ok ns' /\
    s ns' = Some 86399 /\ a ns' = Some (of_Z 120).
Proof.
  split; [reflexivity |].
  destruct (loop_variables_after_prepare (loaded [row0; late_frame])
              [row0; late_frame] eq_refl) as (ns' & H1 & _ & H3).
  exists ns'. split; [exact H1 |].
  exact (H3 late_frame eq_refl).
Defined.

(** ** Rounding from above *)

(** Rounding gives a zero, a finite number or an infinity of the sign it is
    given. *)
Lemma binary_round_cases (sx : bool) (M : positive) (ez : Z) :
  binary_round prec emax sx M ez = S754_zero sx \/
  (exists m e, binary_round prec emax sx M ez = S754_finite sx m e) \/
  binary_round prec emax sx M ez = S754_infinity sx.
Proof.
  pose proof (binary_round_not_nan sx M ez) as Hnan. revert Hnan.
  unfold binary_round.
  destruct (shl_align M ez _) as [mz e1].
  unfold binary_round_aux.
  destruct (shr_fexp prec emax (Z.pos mz) e1 loc_Exact) as [mrs1 e2].
  destruct (shr_fexp prec emax _ e2 loc_Exact) as [mrs3 e3].
  destruct (shr_m mrs3) as [| m | m]; intros Hnan.
  - left. reflexivity.
  - destruct (Z.leb e3 (emax - prec)); [right; left; eauto | right; right; reflexivity].
  - congruence.
Qed.

(** Rounding is monotone against a binary64 above the rounded value: if
    [q * 2^ez <= mx * 2^ex] then the rounding of [q * 2^ez] is not above
    the binary64 [mx * 2^ex]. *)
Lemma binary_round_le (q mx : positive) (ez ex : Z) :
  bounded prec emax mx ex = true ->
  ez <= ex ->
  Z.pos q <= Z.pos mx * 2 ^ (ex - ez) ->
  SFleb (binary_round prec emax false q ez) (S754_finite false mx ex) = true.
Proof.
  intros Hb Hez Hq.
  destruct (Z.eq_dec (Z.pos q) (Z.pos mx * 2 ^ (ex - ez))) as [Heq | Hne].
  { rewrite (binary_round_exact false q mx ez ex Hb)
      by (right; split; assumption).
    apply finite_le_finite. right. split; lia. }
  assert (Hlt : Z.pos q < Z.pos mx * 2 ^ (ex - ez)) by lia. clear Hq Hne.
  pose proof Hb as Hb'. unfold bounded, canonical_mantissa in Hb'.
  apply andb_true_iff in Hb' as [Hc Hmax].
  apply Z.eqb_eq in Hc. apply Z.leb_le in Hmax.
  rewrite fexp_eq in Hc. change (emax - prec) with 971 in Hmax.
  pose proof (digits2_bounds mx) as [Hx1 Hx2].
  pose proof (digits2_bounds q) as [Hq1 Hq2].
  set (dx := Z.pos (digits2_pos mx)) in *.
  set (d := Z.pos (digits2_pos q)) in *.
  assert (Hdx : 0 < dx) by (unfold dx; lia).
  assert (Hd : 0 < d) by (unfold d; lia).
  assert (Hpow : 0 < 2 ^ (ex - ez)) by (apply Z.pow_pos_nonneg; lia).
  assert (Hdd : d + ez <= dx + ex).
  { assert (H : 2 ^ (d - 1) < 2 ^ (dx + (ex - ez))).
    { rewrite Z.pow_add_r by lia.
      eapply Z.le_lt_trans; [exact Hq1 |].
      eapply Z.lt_le_trans; [exact Hlt |].
      apply Z.mul_le_mono_nonneg_r; lia. }
    apply Z.pow_lt_mono_r_iff in H; lia. }
  unfold binary_round. fold d. rewrite fexp_eq.
  set (fe := Z.max (d + ez - 53) (-1074)).
  assert (Hfe : fe <= ex) by (unfold fe; lia).
  assert (Hfe2 : -1074 <= fe) by (unfold fe; lia).
  assert (Hfe3 : d + ez - 53 <= fe) by (unfold fe; lia).
  destruct (Z.lt_ge_cases fe ez) as [Hsl | Hsr].
  - destruct (shl_align_spec q ez fe) as (He & Hm & Hdig); [lia |].
    destruct (shl_align q ez fe) as [q' e']. cbn [fst snd] in He, Hm, Hdig.
    subst e'. fold d in Hdig.
    assert (Hbq : bounded prec emax q' fe = true).
    { unfold bounded, canonical_mantissa. rewrite fexp_eq, Hdig.
      apply andb_true_iff. split; [apply Z.eqb_eq | apply Z.leb_le].
      - unfold fe. lia.
      - change (emax - prec) with 971. lia. }
    rewrite (binary_round_aux_canonical false q' fe Hbq).
    apply finite_le_finite. left. lia.
  - assert (Hsh : shl_align q ez fe = (q, ez)).
    { unfold shl_align. destruct (fe - ez) eqn:E; try reflexivity. lia. }
    rewrite Hsh. unfold binary_round_aux, shr_fexp.
    cbn [Zdigits2 shr_record_of_loc]. fold d. rewrite fexp_eq. fold fe.
    pose proof (shr_spec {| shr_m := Z.pos q; shr_r := false; shr_s := false |}
                  ez (fe - ez)) as [Hm1 He1]; [cbn; lia |].
    destruct (shr _ ez (fe - ez)) as [mrs1 e1]. cbn [fst snd shr_m] in Hm1, He1.
    replace (Z.max (fe - ez) 0) with (fe - ez) in Hm1, He1 by lia.
    assert (He1' : e1 = fe) by lia. clear He1. subst e1.
    set (n := fe - ez) in *.
    assert (Hn : 0 <= n) by (unfold n; lia).
    assert (Hpn : 0 < 2 ^ n) by (apply Z.pow_pos_nonneg; lia).
    set (m1 := shr_m mrs1) in *.
    assert (Hm1nn : 0 <= m1) by (rewrite Hm1; apply Z.div_pos; lia).
    assert (Hm1q : m1 * 2 ^ n <= Z.pos q).
    { rewrite Hm1, Z.mul_comm. apply Z.mul_div_le. exact Hpn. }
    pose proof (round_nearest_even_bounds m1 (loc_of_shr_record mrs1)) as Hr.
    set (m2 := round_nearest_even m1 (loc_of_shr_record mrs1)) in *.
    assert (Hm1x : fe = ex -> m1 <= Z.pos mx - 1).
    { intros E. assert (m1 < Z.pos mx); [| lia].
      rewrite Hm1. apply Z.div_lt_upper_bound; [exact Hpn |].
      unfold n. rewrite E, Z.mul_comm. exact Hlt. }
    destruct m2 as [| p2 | p2] eqn:Em2; try lia.
    + cbn [Zdigits2]. rewrite fexp_eq.
      pose proof (shr_spec {| shr_m := 0; shr_r := false; shr_s := false |}
                    fe (Z.max (0 + fe - 53) (-1074) - fe)) as [Hm3 _];
        [cbn; lia |].
      destruct (shr _ fe _) as [mrs3 e3]. cbn [fst shr_m] in Hm3.
      rewrite Z.div_0_l in Hm3 by (apply Z.pow_nonzero; lia).
      rewrite Hm3. reflexivity.
    + cbn [Zdigits2]. rewrite fexp_eq.
      pose proof (digits2_bounds p2) as [Hp1 Hp2].
      set (dq := Z.pos (digits2_pos p2)) in *.
      assert (Hdq : 0 < dq) by (unfold dq; lia).
      assert (HA : dq <= Z.max (d - n + 1) 1).
      { destruct (Z.le_gt_cases dq 1) as [H1 | H1]; [lia |].
        assert (H2 : 2 ^ (dq - 2) <= m1).
        { assert (H3 : 2 ^ (dq - 1) = 2 * 2 ^ (dq - 2)).
          { replace (dq - 1) with (Z.succ (dq - 2)) by lia.
            apply Z.pow_succ_r. lia. }
          assert (0 < 2 ^ (dq - 2)) by (apply Z.pow_pos_nonneg; lia).
          lia. }
        assert (H4 : 2 ^ (dq - 2 + n) < 2 ^ d).
        { rewrite Z.pow_add_r by lia.
          eapply Z.le_lt_trans; [| exact Hq2].
          etransitivity; [| exact Hm1q].
          apply Z.mul_le_mono_nonneg_r; lia. }
        apply Z.pow_lt_mono_r_iff in H4; lia. }
      pose proof (shr_spec {| shr_m := Z.pos p2; shr_r := false; shr_s := false |}
                    fe (Z.max (dq + fe - 53) (-1074) - fe)) as [Hm3 He3];
        [cbn; lia |].
      destruct (shr _ fe _) as [mrs3 e3]. cbn [fst snd shr_m] in Hm3, He3.
      set (n2 := Z.max (dq + fe - 53) (-1074) - fe) in *.
      assert (Hn2 : n2 <= 1) by (unfold n2, n in *; lia).
      assert (Hfin : 0 <= shr_m mrs3 /\ e3 <= ex /\
                     (e3 = ex -> shr_m mrs3 <= Z.pos mx)).
      { split.
        { rewrite Hm3. apply Z.div_pos; [lia | apply Z.pow_pos_nonneg; lia]. }
        destruct (Z.le_gt_cases n2 0) as [Hle | Hgt].
        - replace (Z.max n2 0) with 0 in Hm3, He3 by lia.
          rewrite Z.pow_0_r, Z.div_1_r in Hm3.
          split; [lia |]. intros E. assert (Efe : fe = ex) by lia.
          specialize (Hm1x Efe). rewrite Hm3. lia.
        - assert (En2 : n2 = 1) by lia.
          replace (Z.max n2 0) with 1 in Hm3, He3 by lia.
          assert (Edq : dq = 54) by (unfold n2 in En2; lia).
          assert (Hdn : d - n = 53) by (unfold n in *; lia).
          destruct (Z.eq_dec fe ex) as [Efe | Nfe].
          { exfalso. specialize (Hm1x Efe).
            assert (Hle : Z.pos p2 <= Z.pos mx) by lia.
            pose proof (digits2_le p2 mx Hle) as Hdig. fold dq dx in Hdig. lia. }
          split; [lia |]. intros E.
          assert (Hdx53 : dx = 53) by lia.
          assert (Hmx : 2 ^ 52 <= Z.pos mx).
          { replace 52 with (dx - 1) by lia. exact Hx1. }
          assert (Hm1lt : m1 < 2 ^ 53).
          { assert (H : m1 * 2 ^ n < 2 ^ 53 * 2 ^ n).
            { rewrite <- Z.pow_add_r by lia.
              replace (53 + n) with d by lia. lia. }
            apply Z.mul_lt_mono_pos_r in H; [exact H | exact Hpn]. }
          rewrite Hm3. transitivity (2 ^ 52); [| exact Hmx].
          change (2 ^ 1) with 2.
          apply Z.div_le_upper_bound; [lia |].
          change (2 * 2 ^ 52) with (2 ^ 53). lia. }
      destruct Hfin as (Hnn & Hle & Heq).
      destruct (shr_m mrs3) as [| mf | mf]; try lia.
      * reflexivity.
      * replace (Z.leb e3 (emax - prec)) with true
          by (symmetry; apply Z.leb_le; change (emax - prec) with 971; lia).
        apply finite_le_finite.
        destruct (Z.eq_dec e3 ex) as [E | E]; [right | left; lia].
        split; [lia | apply Heq; exact E].
Qed.

(** Adding a float that is not positive never takes a positive binary64
    up. *)
Lemma add_nonpos_le (mx : positive) (ex : Z) (y : float) :
  bounded prec emax mx ex = true ->
  leb y zero = true ->
  leb (add (S754_finite false mx ex) y) (S754_finite false mx ex) = true.
Proof.
  intros Hb Hy. unfold leb, add in *.
  destruct y as [sy | sy | | sy my ey]; cbn [SFadd].
  - apply SFleb_refl. discriminate.
  - destruct sy; [reflexivity | discriminate Hy].
  - discriminate Hy.
  - destruct sy; [| discriminate Hy].
    set (ez := Z.min ex ey).
    destruct (shl_align_spec mx ex ez) as (_ & Hm1 & _); [unfold ez; lia |].
    cbn [cond_Zopp].
    destruct (Z.pos (fst (shl_align mx ex ez))
              + - Z.pos (fst (shl_align my ey ez))) as [| q | q] eqn:E;
      cbn [binary_normalize].
    + reflexivity.
    + apply binary_round_le; [exact Hb | unfold ez; lia | lia].
    + destruct (binary_round_cases true q ez) as [H | [(m & e & H) | H]];
        rewrite H; reflexivity.
Qed.

(** [left + acq <= float(left)] for a frame whose acquisition time is not
    positive. *)
Lemma right_of_le (fr : FrameRecord) :
  leb (acq_time_s fr) zero = true ->
  leb (right_of fr) (of_Z (left_of fr)) = true.
Proof.
  intros Ha. unfold right_of. pose proof (left_of_range fr) as Hl.
  destruct (left_of fr) as [| p | p]; try lia.
  - change (of_Z 0) with (S754_zero false).
    destruct (acq_time_s fr) as [[] | [] | | [] m e];
      try discriminate Ha; reflexivity.
  - destruct (of_Z_exact p) as (m & E & Hb & _); [lia |].
    unfold of_Z in *. rewrite E. apply add_nonpos_le; assumption.
Qed.

(** X11. A frame whose acquisition time is negative (or zero) is drawn
    backwards: its right coordinate is at most its left coordinate, in
    binary64 arithmetic, and the cell still completes. *)
Theorem right_not_after_left_for_negative_acq (ns : Namespace) (d : DataFrame) :
  df ns = Some d ->
  exists (ns' : Namespace) (l : list Z) (r : list float),
    prepare_cell ns = Ok ns' /\ l_values ns' = Some l /\ r_values ns' = Some r /\
    forall (i : nat) (fr : FrameRecord),
      d !! i = Some fr -> leb (acq_time_s fr) zero = true ->
      exists (x : Z) (y : float),
        l !! i = Some x /\ r !! i = Some y /\ leb y (of_Z x) = true.
Proof.
  intros Hdf. exists (prepared ns d), (left_of <$> d), (right_of <$> d).
  split; [apply prepare_cell_ok; exact Hdf |].
  split; [reflexivity |]. split; [reflexivity |].
  intros i fr Hfr Ha. exists (left_of fr), (right_of fr).
  rewrite !list_lookup_fmap, Hfr.
  split; [reflexivity |]. split; [reflexivity |].
  apply right_of_le. exact Ha.
Qed.

Lemma right_not_after_left_for_negative_acq_witness :
  df (loaded [negative_frame]) = Some [negative_frame] /\
  exists (ns' : Namespace) (l : list Z) (r : list float) (x : Z) (y : float),
    prepare_cell (loaded [negative_frame]) = Ok ns' /\
    l_values ns' = Some l /\ r_values ns' = Some r /\
    l !! 0%nat = Some x /\ r !! 0%nat = Some y /\ leb y (of_Z x) = true.
Proof.
  split; [reflexivity |].
  destruct (right_not_after_left_for_negative_acq (loaded [negative_frame])
              [negative_frame] eq_refl) as (ns' & l & r & H1 & H2 & H3 & H4).
  destruct (H4 0%nat negative_frame eq_refl eq_refl)
    as (x & y & Hx & Hy & Hle).
  exists ns', l, r, x, y. repeat split; assumption.
Defined.
